(** * Retail store ledger: a shallow embedding of [main.py]

    The ledger part of the dashboard script is embedded here: the three
    dataclasses ([ShelfTracking], [Transaction], [StoreItem]), the methods of
    [StoreItem], the store factory and the KPI expressions computed over the
    item collection.

    Python integers are [Z].  A naive [datetime] is the number of
    microseconds since [datetime.min], a [timedelta] a signed number of
    microseconds.  Methods that mutate [self] or read the outside world
    (clock, uuid generator, random generator, toast and print output) are
    programs of a small state-and-exception monad: an exception leaves the
    state as it was at the [raise], as in Python. *)

From Stdlib Require Import ZArith List String Bool Lia QArith Qabs.
From Stdlib Require Import DecimalString.
Import ListNotations.

Open Scope string_scope.
Open Scope list_scope.
Open Scope Z_scope.

(* ------------------------------------------------------------------ *)
(** ** Exceptions and the program monad *)

Inductive exn : Type :=
| ValueError (msg : string)
| IndexError (msg : string)
| StatisticsError (msg : string)
| OverflowError (msg : string).

Inductive result (A : Type) : Type :=
| Ok (a : A)
| Raise (e : exn).
Arguments Ok {A} a.
Arguments Raise {A} e.

(** A program over a mutable state [S]: the final state is returned on
    both outcomes, so what was mutated before a [raise] stays mutated. *)
Definition Prog (S A : Type) : Type := S -> result A * S.

Definition ret {S A} (a : A) : Prog S A := fun s => (Ok a, s).

Definition bind {S A B} (p : Prog S A) (k : A -> Prog S B) : Prog S B :=
  fun s => match p s with
           | (Ok a, s') => k a s'
           | (Raise e, s') => (Raise e, s')
           end.

Definition raise {S A} (e : exn) : Prog S A := fun s => (Raise e, s).
Definition get {S} : Prog S S := fun s => (Ok s, s).

Declare Scope prog_scope.
Delimit Scope prog_scope with prog.
Notation "x <- p ;; k" := (bind p (fun x => k))
  (at level 61, p at next level, right associativity) : prog_scope.
Notation "p ;; k" := (bind p (fun _ => k))
  (at level 61, right associativity) : prog_scope.
Open Scope prog_scope.

(** [for _ in range(n): body] *)
Fixpoint for_n {S} (n : nat) (body : Prog S unit) : Prog S unit :=
  match n with
  | O => ret tt
  | Datatypes.S n' => body ;; for_n n' body
  end.

(** [range(n)] of a negative [n] is empty. *)
Definition for_range {S} (n : Z) (body : Prog S unit) : Prog S unit :=
  for_n (Z.to_nat n) body.

(* ------------------------------------------------------------------ *)
(** ** Time *)

Definition datetime := Z.
Definition timedelta := Z.

(** [datetime.min], from which datetimes count: no datetime is earlier.
    The clock is read in the present, so the back-dating of the factory,
    by twelve days at most, stays in range and is a plain subtraction;
    the day-passing step, which can be repeated at will, is checked. *)
Definition datetime_min : datetime := 0.

Definition usec_per_day : Z := 86400000000.

(** [timedelta(days=n)] *)
Definition timedelta_of_days (n : Z) : timedelta := n * usec_per_day.

(** [td.days]: a timedelta is normalised with non-negative seconds and
    microseconds, so [days] is the floor of the quotient. *)
Definition days (td : timedelta) : Z := td / usec_per_day.

(* ------------------------------------------------------------------ *)
(** ** The outside world *)

Inductive ui_event : Type :=
| Toast (msg : string)
| Print (msg : string).

(** The clock, the uuid generator and the random generator are oracles
    indexed by the number of calls made so far; [datetime_str] is the
    rendering of a datetime by [str()], left abstract; [console] collects
    what [st.toast] and [print] emitted, oldest first. *)
Record World : Type := mkWorld {
  wall_clock : nat -> datetime;
  now_calls : nat;
  uuid_source : nat -> string;
  uuid_calls : nat;
  rand_source : nat -> Z;
  rand_calls : nat;
  datetime_str : datetime -> string;
  console : list ui_event
}.

(** [datetime.now()] *)
Definition datetime_now : Prog World datetime :=
  fun w => (Ok (wall_clock w (now_calls w)),
            mkWorld (wall_clock w) (Datatypes.S (now_calls w))
                    (uuid_source w) (uuid_calls w)
                    (rand_source w) (rand_calls w)
                    (datetime_str w) (console w)).

(** [str(uuid.uuid4())] *)
Definition uuid4_str : Prog World string :=
  fun w => (Ok (uuid_source w (uuid_calls w)),
            mkWorld (wall_clock w) (now_calls w)
                    (uuid_source w) (Datatypes.S (uuid_calls w))
                    (rand_source w) (rand_calls w)
                    (datetime_str w) (console w)).

(** [random.randint(a, b)]: an integer [N] with [a <= N <= b], taken from
    the next raw draw; an empty range is a [ValueError]. *)
Definition random_randint (a b : Z) : Prog World Z :=
  fun w =>
    if b <? a then (Raise (ValueError "empty range for randrange()"), w)
    else (Ok (a + (rand_source w (rand_calls w)) mod (b - a + 1)),
          mkWorld (wall_clock w) (now_calls w)
                  (uuid_source w) (uuid_calls w)
                  (rand_source w) (Datatypes.S (rand_calls w))
                  (datetime_str w) (console w)).

Definition emit (e : ui_event) : Prog World unit :=
  fun w => (Ok tt,
            mkWorld (wall_clock w) (now_calls w)
                    (uuid_source w) (uuid_calls w)
                    (rand_source w) (rand_calls w) (datetime_str w)
                    (console w ++ [e])).

(** [f"{n}"] for an integer *)
Definition str_of_int (n : Z) : string := NilZero.string_of_int (Z.to_int n).

(* ------------------------------------------------------------------ *)
(** ** Data model *)

Record ShelfTracking : Type := mkShelfTracking {
  date_received : datetime;
  date_displayed : datetime
}.

Module Transaction.
Record t : Type := mk {
  transaction_id : string;
  storeitem_name : string;
  location : string;
  quantity_change : Z;
  timestamp : datetime;
  transaction_type : string
}.
End Transaction.

Record StoreItem : Type := mkStoreItem {
  name : string;
  upc : string;
  quantity : Z;
  category : string;
  location : string;
  shelf_tracking : ShelfTracking;
  transactions : list Transaction.t;
  _sold_durations : list Z
}.

(** The dataclass constructor with the two [default_factory=list] fields
    left to their defaults. *)
Definition new_StoreItem (n u : string) (q : Z) (c l : string)
    (s : ShelfTracking) : StoreItem :=
  mkStoreItem n u q c l s [] [].

Definition set_quantity (it : StoreItem) (q : Z) : StoreItem :=
  mkStoreItem (name it) (upc it) q (category it) (location it)
              (shelf_tracking it) (transactions it) (_sold_durations it).

Definition set_transactions (it : StoreItem) (l : list Transaction.t)
    : StoreItem :=
  mkStoreItem (name it) (upc it) (quantity it) (category it) (location it)
              (shelf_tracking it) l (_sold_durations it).

Definition set_sold_durations (it : StoreItem) (l : list Z) : StoreItem :=
  mkStoreItem (name it) (upc it) (quantity it) (category it) (location it)
              (shelf_tracking it) (transactions it) l.

Definition set_shelf_tracking (it : StoreItem) (s : ShelfTracking)
    : StoreItem :=
  mkStoreItem (name it) (upc it) (quantity it) (category it) (location it)
              s (transactions it) (_sold_durations it).

(* ------------------------------------------------------------------ *)
(** ** Methods of [StoreItem]

    A method runs on the pair of the world and the receiver. *)

Record Frame : Type := mkFrame {
  env : World;
  self : StoreItem
}.

Definition in_world {A} (p : Prog World A) : Prog Frame A :=
  fun f => let (r, w) := p (env f) in (r, mkFrame w (self f)).

Definition get_self : Prog Frame StoreItem :=
  fun f => (Ok (self f), f).

Definition modify_self (g : StoreItem -> StoreItem) : Prog Frame unit :=
  fun f => (Ok tt, mkFrame (env f) (g (self f))).

(** [st.toast(msg, duration="long")] and [print(msg)] *)
Definition st_toast (msg : string) : Prog Frame unit :=
  in_world (emit (Toast msg)).
Definition print (msg : string) : Prog Frame unit :=
  in_world (emit (Print msg)).

(** [self._sold_durations.append(d)] *)
Definition sold_durations_append (d : Z) : Prog Frame unit :=
  modify_self (fun it => set_sold_durations it (_sold_durations it ++ [d])).

(** [self._sold_durations.pop()]: removes and returns the last entry,
    [IndexError] on an empty list. *)
Definition sold_durations_pop : Prog Frame Z :=
  it <- get_self ;;
  match rev (_sold_durations it) with
  | [] => raise (IndexError "pop from empty list")
  | x :: _ =>
      modify_self (fun it => set_sold_durations it
                               (removelast (_sold_durations it))) ;;
      ret x
  end.

Definition _record_transaction (qty_change : Z) (transaction_type : string)
    : Prog Frame Transaction.t :=
  tid <- in_world uuid4_str ;;
  it <- get_self ;;
  ts <- in_world datetime_now ;;
  let txn := Transaction.mk tid (name it) (location it) qty_change ts
                            transaction_type in
  modify_self (fun it => set_transactions it (transactions it ++ [txn])) ;;
  ret txn.

Definition purchase (qty : Z) : Prog Frame Transaction.t :=
  it <- get_self ;;
  if qty >? quantity it
  then raise (ValueError "Not enough inventory to purchase")
  else
    sell_date <- in_world datetime_now ;;
    it <- get_self ;;
    let days_on_shelf :=
      Z.max 0 (days (sell_date - date_displayed (shelf_tracking it))) in
    for_range qty (sold_durations_append days_on_shelf) ;;
    modify_self (fun it => set_quantity it (quantity it - qty)) ;;
    it <- get_self ;;
    st_toast ("Sold " ++ str_of_int qty ++ " of " ++ name it)%string ;;
    print ("Sold " ++ str_of_int qty ++ " of " ++ name it)%string ;;
    _record_transaction (- qty) "purchase".

Definition return_item (qty : Z) : Prog Frame Transaction.t :=
  it <- get_self ;;
  for_range (Z.min qty (Z.of_nat (List.length (_sold_durations it))))
            (sold_durations_pop ;; ret tt) ;;
  modify_self (fun it => set_quantity it (quantity it + qty)) ;;
  it <- get_self ;;
  st_toast ("Returned " ++ str_of_int qty ++ " of " ++ name it)%string ;;
  print ("Returned " ++ str_of_int qty ++ " of " ++ name it)%string ;;
  _record_transaction qty "return".

Definition replenish (qty : Z) : Prog Frame Transaction.t :=
  modify_self (fun it => set_quantity it (quantity it + qty)) ;;
  it <- get_self ;;
  st_toast ("Replenished " ++ str_of_int qty ++ " of " ++ name it)%string ;;
  print ("Replenished " ++ str_of_int qty ++ " of " ++ name it)%string ;;
  _record_transaction qty "replenish".

(** The body of the "Simulate Day Passing" loop, for one item:
    [item.shelf_tracking.date_displayed -= timedelta(days=1)] and the
    [print] that follows it.  The subtraction raises [OverflowError],
    before anything is assigned, when the result would fall before
    [datetime.min]. *)
Definition advance_day : Prog Frame unit :=
  it <- get_self ;;
  if date_displayed (shelf_tracking it) - timedelta_of_days 1 <? datetime_min
  then raise (OverflowError "date value out of range")
  else
    modify_self (fun it =>
      set_shelf_tracking it
        (mkShelfTracking (date_received (shelf_tracking it))
                         (date_displayed (shelf_tracking it)
                          - timedelta_of_days 1))) ;;
    f <- get ;;
    print ("New shelf date: "
           ++ datetime_str (env f) (date_displayed (shelf_tracking (self f)))
           ++ " for " ++ name (self f))%string.

(** Python's built-in [sum]: a left fold from [0]. *)
Definition sum (l : list Z) : Z := fold_left Z.add l 0.

(** A Python number as [statistics.mean] hands it back: an [int], or a
    [float] given by the rational it holds exactly. *)
Inductive number : Type :=
| PyInt (z : Z)
| PyFloat (x : Q).

Definition number_value (v : number) : Q :=
  match v with
  | PyInt z => inject_Z z
  | PyFloat x => x
  end.

(** [n / d] rounded to the nearest integer, a tie going to the even
    one. *)
Definition round_half_even (n d : Z) : Z :=
  let q := n / d in
  let r := n mod d in
  if 2 * r <? d then q
  else if d <? 2 * r then q + 1
  else if Z.even q then q else q + 1.

(** [p / d] divided by [2 ^ e], as a numerator and a denominator. *)
Definition scaled (p d e : Z) : Z * Z :=
  if 0 <=? e then (p, d * 2 ^ e) else (p * 2 ^ (- e), d).

(** The exponent [e] for which [p / d] over [2 ^ e] has 53 bits before
    the point: [2 ^ 52 <= p / d / 2 ^ e < 2 ^ 53]. *)
Definition binade (p d : Z) : Z :=
  let e0 := Z.log2 p - Z.log2 d - 52 in
  let (n, m) := scaled p d e0 in
  if n / m <? 2 ^ 52 then e0 - 1 else e0.

(** The float nearest to [p / d] for positive [p] and [d]: 53 significant
    bits, round half to even. *)
Definition float_of_ratio_pos (p d : Z) : Q :=
  let e := binade p d in
  let (n, m) := scaled p d e in
  let k := round_half_even n m in
  Qred (if 0 <=? e then inject_Z (k * 2 ^ e) else k # Z.to_pos (2 ^ (- e))).

(** [num / den] of two integers, [den] positive, as Python's true
    division and [float(Fraction(num, den))] give it: the binary64 float
    nearest to the quotient.  The exponent range of binary64 is left out:
    the quotients taken here are means of day counts, which lie between
    one over the length of the list and the 3652058 days from
    [datetime.min] to [datetime.max]. *)
Definition float_of_ratio (num den : Z) : Q :=
  match num with
  | 0 => inject_Z 0
  | Z.pos _ => float_of_ratio_pos num den
  | Z.neg _ => Qopp (float_of_ratio_pos (- num) den)
  end.

(** The mean of a non-empty list of integers as [statistics.mean] hands
    it back: computed exactly, then an [int] when it is integral and the
    nearest [float] when it is not. *)
Definition mean_number (data : list Z) : number :=
  let total := sum data in
  let n := Z.of_nat (List.length data) in
  if total mod n =? 0 then PyInt (total / n)
  else PyFloat (float_of_ratio total n).

(** [statistics.mean] on integers; [StatisticsError] on empty data. *)
Definition statistics_mean (data : list Z) : result number :=
  match data with
  | [] => Raise (StatisticsError "mean requires at least one data point")
  | _ :: _ => Ok (mean_number data)
  end.

(** The [average_days_to_sell] property: a list is truthy when it is not
    empty. *)
Definition average_days_to_sell : Prog Frame number :=
  it <- get_self ;;
  match _sold_durations it with
  | _ :: _ => fun f => (statistics_mean (_sold_durations it), f)
  | [] => ret (PyInt 0)
  end.

(* ------------------------------------------------------------------ *)
(** ** Store generation *)

Definition random_shelf_tracking : Prog World ShelfTracking :=
  days_received <- random_randint 8 12 ;;
  days_displayed <- random_randint 1 days_received ;;
  now1 <- datetime_now ;;
  now2 <- datetime_now ;;
  ret (mkShelfTracking (now1 - timedelta_of_days days_received)
                       (now2 - timedelta_of_days days_displayed)).

(** A method call [item.m(...)] made from module level: the receiver is
    updated in place, an exception propagates. *)
Definition call_method {A} (m : Prog Frame A) (item : StoreItem)
    : Prog World (A * StoreItem) :=
  fun w => match m (mkFrame w item) with
           | (Ok a, f) => (Ok (a, self f), env f)
           | (Raise e, f) => (Raise e, env f)
           end.

(** The loop over [zip(items_list, ranges)]: each item gets one
    [purchase] of a quantity drawn by [random.randint] from its range;
    the result is the list of the items as the loop leaves them. *)
Fixpoint simulate_sales (l : list (StoreItem * (Z * Z)))
    : Prog World (list StoreItem) :=
  match l with
  | [] => ret []
  | (item, (lo, hi)) :: rest =>
      q <- random_randint lo hi ;;
      r <- call_method (purchase q) item ;;
      rest' <- simulate_sales rest ;;
      ret (snd r :: rest')
  end.

Definition generate_store : Prog World (list StoreItem) :=
  s1 <- random_shelf_tracking ;;
  s2 <- random_shelf_tracking ;;
  s3 <- random_shelf_tracking ;;
  s4 <- random_shelf_tracking ;;
  s5 <- random_shelf_tracking ;;
  let items_list :=
    [ new_StoreItem "Baby Yoda Keychain" "57023" 20 "Keychain"
                    "Front Counter" s1;
      new_StoreItem "iPhone 15 Case" "88002" 20 "Accessory" "End Cap A" s2;
      new_StoreItem "Disney Princess Keychain" "99011" 20 "Keychain"
                    "Main Shelf" s3;
      new_StoreItem "Mandalorian Keychain" "57089" 20 "Keychain"
                    "Main Shelf" s4;
      new_StoreItem "LED Lanyard" "44022" 20 "Accessory" "Rotating Rack" s5 ]
  in
  simulate_sales
    (combine items_list [(10, 15); (6, 10); (5, 9); (4, 8); (1, 5)]).

(* ------------------------------------------------------------------ *)
(** ** KPIs *)

Definition has_type (k : string) (t : Transaction.t) : bool :=
  String.eqb (Transaction.transaction_type t) k.

Definition total_units_sold (items : list StoreItem) : Z :=
  sum (flat_map (fun item =>
         map (fun t => - Transaction.quantity_change t)
             (filter (has_type "purchase") (transactions item))) items)
  - sum (flat_map (fun item =>
           map (fun t => Transaction.quantity_change t)
               (filter (has_type "return") (transactions item))) items).

(** The [key] of [best_location]: purchases of the items at [loc]. *)
Definition location_purchases (items : list StoreItem) (loc : string) : Z :=
  sum (flat_map (fun i =>
         map (fun t => - Transaction.quantity_change t)
             (filter (has_type "purchase") (transactions i)))
         (filter (fun i => String.eqb (location i) loc) items)).

(** Python's [max(iterable, key=...)]: the first element, in iteration
    order, whose key is not exceeded; [ValueError] on an empty iterable. *)
Fixpoint max_scan {A} (key : A -> Z) (best : A) (best_key : Z)
    (rest : list A) : A :=
  match rest with
  | [] => best
  | x :: rest' =>
      if key x >? best_key then max_scan key x (key x) rest'
      else max_scan key best best_key rest'
  end.

Definition py_max {A} (key : A -> Z) (l : list A) : result A :=
  match l with
  | [] => Raise (ValueError "max() iterable argument is empty")
  | x :: rest => Ok (max_scan key x (key x) rest)
  end.

Section BestLocation.
(** The order in which a [set] built from the given elements is
    iterated: it depends on the string hashes of the run. *)
Variable set_iter : list string -> list string.

Definition best_location (items : list StoreItem) : result string :=
  py_max (location_purchases items) (set_iter (map location items)).
End BestLocation.

(** [order] lists every element of [elems] once and nothing else. *)
Definition mem (x : string) (l : list string) : bool :=
  existsb (String.eqb x) l.

Fixpoint distinct (l : list string) : bool :=
  match l with
  | [] => true
  | x :: r => negb (mem x r) && distinct r
  end.

Definition enumerates (order elems : list string) : bool :=
  distinct order
  && forallb (fun x => mem x elems) order
  && forallb (fun x => mem x order) elems.

(* ------------------------------------------------------------------ *)
(** ** Sessions: the sidebar actions applied to one item *)

Inductive action : Type :=
| Sell (qty : Z)
| Restock (qty : Z)
| Return (qty : Z)
| DayPassing.

Definition perform (a : action) : Prog Frame unit :=
  match a with
  | Sell qty => purchase qty ;; ret tt
  | Restock qty => replenish qty ;; ret tt
  | Return qty => return_item qty ;; ret tt
  | DayPassing => advance_day
  end.

(** The sidebar wraps each method call in [try ... except Exception], so
    a session goes on after a failed action, from the state the action
    left.  The day-passing loop is not wrapped: its exception ends the
    script run, and the next run finds the session state as it was
    left. *)
Definition handled (f : Frame) (a : action) : Frame := snd (perform a f).

Definition session (acts : list action) (f : Frame) : Frame :=
  fold_left handled acts f.

(** A valid action, as the specification has it: a purchase of at least
    one and at most the stock on hand, a return or restock of at least
    one. *)
Definition valid_action (a : action) (it : StoreItem) : bool :=
  match a with
  | Sell qty => (1 <=? qty) && (qty <=? quantity it)
  | Restock qty => 1 <=? qty
  | Return qty => 1 <=? qty
  | DayPassing => true
  end.

Fixpoint valid_session (acts : list action) (f : Frame) : bool :=
  match acts with
  | [] => true
  | a :: rest => valid_action a (self f) && valid_session rest (handled f a)
  end.

(** States an item can be in: built by the constructor with its default
    lists, then changed by the sidebar actions, with any quantities. *)
Inductive reachable : StoreItem -> Prop :=
| reachable_new n u q c l s : reachable (new_StoreItem n u q c l s)
| reachable_step f a :
    reachable (self f) -> reachable (self (handled f a)).

(* ------------------------------------------------------------------ *)
(** ** Notions used to state the properties *)

(** The transaction [_record_transaction] builds in frame [f]. *)
Definition txn_in (f : Frame) (qty_change : Z) (kind : string)
    : Transaction.t :=
  Transaction.mk (uuid_source (env f) (uuid_calls (env f)))
                 (name (self f)) (location (self f)) qty_change
                 (wall_clock (env f) (now_calls (env f))) kind.

(** [datetime.now()] as [purchase] reads it in frame [f]. *)
Definition sell_date_in (f : Frame) : datetime :=
  wall_clock (env f) (now_calls (env f)).

Definition days_on_shelf_in (f : Frame) : Z :=
  Z.max 0 (days (sell_date_in f - date_displayed (shelf_tracking (self f)))).

(** How many entries the pop loop of [return_item] takes off. *)
Definition popped (f : Frame) (qty : Z) : nat :=
  Z.to_nat (Z.min qty (Z.of_nat (List.length (_sold_durations (self f))))).

(** Every action of a session succeeds, but for a day passing that
    would take the display date below [datetime.min]: that one raises
    [OverflowError] and leaves the frame as it was. *)
Fixpoint all_succeed (acts : list action) (f : Frame) : Prop :=
  match acts with
  | [] => True
  | a :: rest =>
      (fst (perform a f) = Ok tt
       \/ (a = DayPassing
           /\ perform a f
              = (Raise (OverflowError "date value out of range"), f)))
      /\ all_succeed rest (handled f a)
  end.


(** The sign convention of the data model: a purchase carries a change
    that is not positive, a return one that is not negative. *)
Definition well_signed (t : Transaction.t) : bool :=
  if has_type "purchase" t then Transaction.quantity_change t <=? 0
  else if has_type "return" t then 0 <=? Transaction.quantity_change t
  else true.

Definition ledger_well_signed (items : list StoreItem) : bool :=
  forallb (fun it => forallb well_signed (transactions it)) items.

(** The sum of the magnitudes of the changes of an item's transactions of
    type [k], as the specification words it. *)
Definition magnitudes (k : string) (it : StoreItem) : Z :=
  fold_right Z.add 0
    (map (fun t => Z.abs (Transaction.quantity_change t))
         (filter (has_type k) (transactions it))).

(** Gross purchases minus gross returns, each summed over the items. *)
Definition net_units_sold (items : list StoreItem) : Z :=
  fold_right Z.add 0 (map (magnitudes "purchase") items)
  - fold_right Z.add 0 (map (magnitudes "return") items).

(** The item without its replenish transactions. *)
Definition without_replenish (it : StoreItem) : StoreItem :=
  set_transactions it
    (filter (fun t => negb (has_type "replenish" t)) (transactions it)).

(** The gross purchases at a location, as the specification words it:
    the magnitudes of the purchase transactions of the items there. *)
Definition gross_purchases_at (items : list StoreItem) (loc : string) : Z :=
  fold_right Z.add 0
    (map (magnitudes "purchase")
         (filter (fun i => String.eqb (location i) loc) items)).

(** The two draws of [random_shelf_tracking] in world [w]. *)
Definition drawn_received (w : World) : Z :=
  8 + rand_source w (rand_calls w) mod (12 - 8 + 1).

Definition drawn_displayed (w : World) : Z :=
  1 + rand_source w (Datatypes.S (rand_calls w))
      mod (drawn_received w - 1 + 1).

(** The world after a [random_shelf_tracking]: two draws and two clock
    readings later. *)
Definition after_shelf_tracking (w : World) : World :=
  mkWorld (wall_clock w) (Datatypes.S (Datatypes.S (now_calls w)))
          (uuid_source w) (uuid_calls w)
          (rand_source w) (Datatypes.S (Datatypes.S (rand_calls w)))
          (datetime_str w) (console w).

(** What one round of the seeding loop makes of an item: one purchase of
    a quantity within the range. *)
Definition seeded (before : StoreItem) (rng : Z * Z) (after : StoreItem)
    : Prop :=
  exists q txn d,
    fst rng <= q <= snd rng
    /\ after = mkStoreItem (name before) (upc before) (quantity before - q)
                 (category before) (location before) (shelf_tracking before)
                 (transactions before ++ [txn])
                 (_sold_durations before ++ repeat d (Z.to_nat q))
    /\ Transaction.quantity_change txn = - q
    /\ Transaction.transaction_type txn = "purchase".

(** Successive readings of the clock do not go back. *)
Definition clock_monotone (w : World) : Prop :=
  forall i, wall_clock w i <= wall_clock w (Datatypes.S i).

(** The shelf tracking of the [k]-th item of the factory: received a
    whole number of days, 8 to 12, before the clock reading made for it,
    displayed a whole number of days, 1 to that number, before the next
    reading. *)
Definition back_dated (w : World) (k : nat) (s : ShelfTracking) : Prop :=
  exists days_received days_displayed,
    8 <= days_received <= 12
    /\ 1 <= days_displayed <= days_received
    /\ date_received s
       = wall_clock w (2 * k + now_calls w)
         - timedelta_of_days days_received
    /\ date_displayed s
       = wall_clock w (Datatypes.S (2 * k + now_calls w))
         - timedelta_of_days days_displayed.

(** An item as the factory leaves it: twenty units less one purchase of a
    quantity within the range. *)
Definition seeded_with (rng : Z * Z) (it : StoreItem) : Prop :=
  exists q txn,
    fst rng <= q <= snd rng
    /\ quantity it = 20 - q
    /\ transactions it = [txn]
    /\ Transaction.quantity_change txn = - q
    /\ Transaction.transaction_type txn = "purchase"
    /\ Z.of_nat (List.length (_sold_durations it)) = q.

(* ------------------------------------------------------------------ *)
(** ** Sample data *)

(** A clock that starts on day 1000 and advances by one second per
    reading. *)
Definition sample_world : World :=
  mkWorld (fun n => timedelta_of_days 1000 + Z.of_nat n * 1000000) 0
          (fun n => ("txn-" ++ str_of_int (Z.of_nat n))%string) 0
          (fun n => Z.of_nat n * 7 + 3) 0
          str_of_int [].

(** An item of twenty units, received on day 990 and displayed on day
    995. *)
Definition sample_item : StoreItem :=
  new_StoreItem "Baby Yoda Keychain" "57023" 20 "Keychain" "Front Counter"
    (mkShelfTracking (timedelta_of_days 990) (timedelta_of_days 995)).

Definition sample_frame : Frame := mkFrame sample_world sample_item.

(** Two items after a day at the till: seven sold and two returned of the
    first, three sold and five restocked of the second. *)
Definition sample_store : list StoreItem :=
  [ self (session [Sell 4; Return 2; Sell 3] sample_frame);
    self (session [Sell 3; Restock 5]
            (mkFrame sample_world
               (new_StoreItem "LED Lanyard" "44022" 20 "Accessory"
                  "Rotating Rack"
                  (mkShelfTracking (timedelta_of_days 991)
                                   (timedelta_of_days 997))))) ].


(** An iteration order for the sample: first occurrences, last first. *)
Definition sample_set_iter (l : list string) : list string :=
  rev (nodup string_dec l).

(** The sample world with a clock that loses a second per reading. *)
Definition backward_world : World :=
  mkWorld (fun n => timedelta_of_days 1000 - Z.of_nat n * 1000000)
          (now_calls sample_world)
          (uuid_source sample_world) (uuid_calls sample_world)
          (rand_source sample_world) (rand_calls sample_world)
          (datetime_str sample_world) (console sample_world).

(* ------------------------------------------------------------------ *)
(** ** The charts: per-item and per-location sales *)

(** The expression the pie chart and the heat map compute for one item:
    purchases minus returns. *)
Definition item_sales (item : StoreItem) : Z :=
  sum (map (fun t => - Transaction.quantity_change t)
           (filter (has_type "purchase") (transactions item)))
  - sum (map (fun t => Transaction.quantity_change t)
             (filter (has_type "return") (transactions item))).

(** [sales] and [labels] of the pie chart. *)
Definition sales (items : list StoreItem) : list Z := map item_sales items.
Definition labels (items : list StoreItem) : list string := map name items.

(** A Python [dict] with string keys: its items in insertion order.
    Assigning to a key that is present keeps its place. *)
Definition dict (V : Type) : Type := list (string * V).

Fixpoint dict_get {V} (d : dict V) (k : string) : option V :=
  match d with
  | [] => None
  | (k', v) :: rest => if String.eqb k' k then Some v else dict_get rest k
  end.

Fixpoint dict_set {V} (d : dict V) (k : string) (v : V) : dict V :=
  match d with
  | [] => [(k, v)]
  | (k', v') :: rest =>
      if String.eqb k' k then (k', v) :: rest
      else (k', v') :: dict_set rest k v
  end.

(** [d.get(k, default)] *)
Definition dict_get_default {V} (d : dict V) (k : string) (default : V) : V :=
  match dict_get d k with
  | Some v => v
  | None => default
  end.

(** The loop that fills [location_sales]. *)
Definition location_sales (items : list StoreItem) : dict Z :=
  fold_left
    (fun d item =>
       dict_set d (location item)
                (dict_get_default d (location item) 0 + item_sales item))
    items [].

(** [d.setdefault(k, default)]: the value under [k], entered as
    [default] at the end of the dictionary when [k] is absent. *)
Definition dict_setdefault {V} (d : dict V) (k : string) (default : V)
    : dict V * V :=
  match dict_get d k with
  | Some v => (d, v)
  | None => (d ++ [(k, default)], default)
  end.

(** The loop that fills [location_days].  [setdefault] hands back the
    list object held under the key, so the [append] shows in the
    dictionary. *)
Fixpoint location_days_from (items : list StoreItem)
    (d : dict (list number)) : Prog World (dict (list number)) :=
  match items with
  | [] => ret d
  | item :: rest =>
      let (d1, v) := dict_setdefault d (location item) [] in
      r <- call_method average_days_to_sell item ;;
      location_days_from rest (dict_set d1 (location item) (v ++ [fst r]))
  end.

Definition location_days (items : list StoreItem)
    : Prog World (dict (list number)) :=
  location_days_from items [].

(* ------------------------------------------------------------------ *)
(** ** The sidebar *)

Definition item_names (items : list StoreItem) : list string :=
  map name items.

(** [next(i for i in items if i.name == selected_item_name)]; [None]
    stands for the [StopIteration] of an exhausted generator. *)
Definition selected_item (items : list StoreItem)
    (selected_item_name : string) : option StoreItem :=
  find (fun i => String.eqb (name i) selected_item_name) items.

(** The loop of the day-passing button, over all items.  The items are
    objects of the session state, which the handler changes in place and
    does not guard with [try]: when the step raises for an item, the
    items before it stay changed.  The result is the outcome, the world
    and the items as the loop leaves them. *)
Fixpoint simulate_day_passing (items : list StoreItem) (w : World)
    : result unit * World * list StoreItem :=
  match items with
  | [] => (Ok tt, w, [])
  | item :: rest =>
      match advance_day (mkFrame w item) with
      | (Ok _, f) =>
          let '(r, w', rest') := simulate_day_passing rest (env f) in
          (r, w', self f :: rest')
      | (Raise e, f) => (Raise e, env f, self f :: rest)
      end
  end.

(** What the sidebar shows. *)
Inductive sidebar_event : Type :=
| SidebarSuccess (msg : string)
| SidebarError (msg : string)
| SidebarInfo (msg : string).

(** The session state of the page: the world, the items held in
    [st.session_state.store_items], and the sidebar messages. *)
Record Page : Type := mkPage {
  page_env : World;
  store_items : list StoreItem;
  sidebar : list sidebar_event
}.

Inductive button : Type :=
| SellButton
| RestockButton
| ReturnButton.

(** [str(e)] of an exception raised with one message argument. *)
Definition exn_str (e : exn) : string :=
  match e with
  | ValueError msg => msg
  | IndexError msg => msg
  | StatisticsError msg => msg
  | OverflowError msg => msg
  end.

(** A method call on [selected_item]: the selected item is the first item
    of that name and an object of the list, so the list shows what the
    method did to it, also when the method raised. *)
Fixpoint on_selected {A} (sel : string) (m : Prog Frame A)
    (items : list StoreItem) (w : World)
    : option (result A * World * list StoreItem) :=
  match items with
  | [] => None
  | i :: rest =>
      if String.eqb (name i) sel
      then let (r, f) := m (mkFrame w i) in Some (r, env f, self f :: rest)
      else match on_selected sel m rest w with
           | Some (r, w', rest') => Some (r, w', i :: rest')
           | None => None
           end
  end.

Definition button_method (b : button) (qty : Z) : Prog Frame Transaction.t :=
  match b with
  | SellButton => purchase qty
  | RestockButton => replenish qty
  | ReturnButton => return_item qty
  end.

Definition button_action (b : button) (qty : Z) : action :=
  match b with
  | SellButton => Sell qty
  | RestockButton => Restock qty
  | ReturnButton => Return qty
  end.

Definition success_message (b : button) (qty : Z) : string :=
  match b with
  | SellButton => ("Sold " ++ str_of_int qty)%string
  | RestockButton => "Restocked"
  | ReturnButton => "Returned to inventory"
  end.

Section Sidebar.
(** The text [print] gives for the list of items, left abstract. *)
Variable repr_items : list StoreItem -> string.

(** The handler of one of the three item buttons, up to its [st.rerun()]:
    the call runs inside [try]; on success the sidebar reports it and the
    store is printed, and an [Exception] is reported in the sidebar. *)
Definition click (b : button) (sel : string) (qty : Z) (p : Page)
    : option Page :=
  match on_selected sel (button_method b qty) (store_items p) (page_env p)
  with
  | None => None
  | Some (Ok _, w, items) =>
      Some (mkPage (snd (emit (Print (repr_items items)) w)) items
                   (sidebar p ++ [SidebarSuccess (success_message b qty)]))
  | Some (Raise e, w, items) =>
      Some (mkPage w items
                   (sidebar p
                    ++ [SidebarError ("Error: " ++ exn_str e)%string]))
  end.
End Sidebar.

(* ------------------------------------------------------------------ *)
(** ** Launching the app *)

(** The process the script runs in: its environment variables, whether a
    Streamlit runtime exists, what [connect_ex] answers for a host and
    port, the interpreter and script paths, what was printed, and the
    subprocesses run so far, each with the command line and the
    environment it inherited. *)
Record Host : Type := mkHost {
  environ : dict string;
  runtime_exists : bool;
  connect_ex : string -> Z -> Z;
  sys_executable : string;
  script_path : string;
  stdout : list string;
  subprocesses : list (list string * dict string)
}.

Definition is_port_in_use (port : Z) (host : string) (h : Host) : bool :=
  connect_ex h host port =? 0.

(** The truth value of [os.environ.get(k)]: an absent variable gives
    [None], an empty string is false as well. *)
Definition environ_set (h : Host) (k : string) : bool :=
  match dict_get (environ h) k with
  | Some (String _ _) => true
  | Some EmptyString => false
  | None => false
  end.

(** [os.environ[k] = v] *)
Definition putenv (k v : string) (h : Host) : Host :=
  mkHost (dict_set (environ h) k v) (runtime_exists h) (connect_ex h)
         (sys_executable h) (script_path h) (stdout h) (subprocesses h).

Definition host_print (msg : string) (h : Host) : Host :=
  mkHost (environ h) (runtime_exists h) (connect_ex h)
         (sys_executable h) (script_path h) (stdout h ++ [msg])
         (subprocesses h).

(** [subprocess.run(args)]: the child gets the environment as it is at
    the call. *)
Definition subprocess_run (args : list string) (h : Host) : Host :=
  mkHost (environ h) (runtime_exists h) (connect_ex h)
         (sys_executable h) (script_path h) (stdout h)
         (subprocesses h ++ [(args, environ h)]).

(** How a call ends: by returning or by [sys.exit(code)]. *)
Inductive ending : Type :=
| Returned
| SystemExit (code : Z).

Definition launch_streamlit (h : Host) : ending * Host :=
  if environ_set h "STREAMLIT_RUNNING" then (Returned, h)
  else if runtime_exists h then
    let h1 := putenv "STREAMLIT_RUNNING" "1" h in
    let h2 := if is_port_in_use 8501 "127.0.0.1" h1
              then putenv "STREAMLIT_RUNNING" "2" h1
              else h1 in
    (Returned, h2)
  else
    let h1 := putenv "STREAMLIT_RUNNING" "3" h in
    let h2 := host_print "Launching Streamlit app..." h1 in
    let h3 := subprocess_run
                [sys_executable h2; "-m"; "streamlit"; "run"; script_path h2;
                 "--server.headless"; "true"] h2 in
    (SystemExit 0, h3).

(* ------------------------------------------------------------------ *)
(** ** Notions used to state the further properties *)

(** The sum of the changes a log records. *)
Definition log_total (txns : list Transaction.t) : Z :=
  fold_right Z.add 0 (map Transaction.quantity_change txns).

(** A transaction stamped with the name and location of [it]. *)
Definition stamped (it : StoreItem) (t : Transaction.t) : Prop :=
  Transaction.storeitem_name t = name it
  /\ Transaction.location t = location it.

(** The purchases an item's log records, as the KPI expressions sum
    them. *)
Definition purchases_of (item : StoreItem) : Z :=
  sum (map (fun t => - Transaction.quantity_change t)
           (filter (has_type "purchase") (transactions item))).

(** The count of the recorded durations lies between the net sales and
    the purchases. *)
Definition durations_bounded (it : StoreItem) : Prop :=
  item_sales it <= Z.of_nat (List.length (_sold_durations it))
  <= purchases_of it.

(** The value [average_days_to_sell] reads for an item. *)
Definition average_value (it : StoreItem) : number :=
  match _sold_durations it with
  | [] => PyInt 0
  | _ :: _ => mean_number (_sold_durations it)
  end.

(** The actions of a session all return. *)
Fixpoint all_return (acts : list action) (f : Frame) : Prop :=
  match acts with
  | [] => True
  | a :: rest => fst (perform a f) = Ok tt /\ all_return rest (handled f a)
  end.

(** An item whose display date can be taken back by a day: the result
    is not before [datetime.min]. *)
Definition can_age (it : StoreItem) : Prop :=
  datetime_min + timedelta_of_days 1 <= date_displayed (shelf_tracking it).

(** The item with its display date one day earlier. *)
Definition a_day_older (it : StoreItem) : StoreItem :=
  set_shelf_tracking it
    (mkShelfTracking (date_received (shelf_tracking it))
                     (date_displayed (shelf_tracking it)
                      - timedelta_of_days 1)).

(** What one round of the seeding loop records for an item: [q] copies
    of the days between the display date and a clock reading that is made
    at index [since] or later. *)
Definition seeded_durations (w : World) (since : nat)
    (before : StoreItem) (rng : Z * Z) (after : StoreItem) : Prop :=
  exists i q,
    (since <= i)%nat
    /\ fst rng <= q <= snd rng
    /\ shelf_tracking after = shelf_tracking before
    /\ _sold_durations after
       = _sold_durations before
         ++ repeat
              (Z.max 0
                 (days (wall_clock w i
                        - date_displayed (shelf_tracking before))))
              (Z.to_nat q).

(** The units the replenish transactions of an item's log brought in. *)
Definition restocked (item : StoreItem) : Z :=
  sum (map (fun t => Transaction.quantity_change t)
           (filter (has_type "replenish") (transactions item))).

(** Units on hand plus net units sold, less the units restocked. *)
Definition stock_balance (it : StoreItem) : Z :=
  quantity it + item_sales it - restocked it.

(* ------------------------------------------------------------------ *)
(** * Properties *)

(** ** Loops over [_sold_durations] *)

Lemma frame_eta (f : Frame) :
  mkFrame (env f) (set_sold_durations (self f) (_sold_durations (self f))) = f.
Proof. destruct f as [w [n u q c l s t d]]; reflexivity. Qed.

(** The append loop of [purchase] adds [n] copies at the end and touches
    nothing else. *)
Lemma for_n_append (d : Z) (n : nat) (f : Frame) :
  for_n n (sold_durations_append d) f
  = (Ok tt, mkFrame (env f)
              (set_sold_durations (self f)
                 (_sold_durations (self f) ++ repeat d n))).
Proof.
  revert f; induction n as [|n IH]; intro f.
  - simpl. rewrite app_nil_r, frame_eta. reflexivity.
  - cbn [for_n]. unfold bind at 1. cbn [sold_durations_append modify_self].
    rewrite IH. cbn. rewrite <- app_assoc. reflexivity.
Qed.

(** One [pop] on a list that ends in [x]. *)
Lemma pop_last (f : Frame) (l : list Z) (x : Z) :
  _sold_durations (self f) = l ++ [x] ->
  sold_durations_pop f
  = (Ok x, mkFrame (env f) (set_sold_durations (self f) l)).
Proof.
  intro E. unfold sold_durations_pop, bind, get_self.
  rewrite E, rev_app_distr. cbn. rewrite E, removelast_last. reflexivity.
Qed.

(** The pop loop of [return_item] never raises when it runs at most
    [length] times, and leaves the front of the list. *)
Lemma for_n_pop (n : nat) (f : Frame) :
  (n <= List.length (_sold_durations (self f)))%nat ->
  for_n n (sold_durations_pop ;; ret tt) f
  = (Ok tt, mkFrame (env f)
              (set_sold_durations (self f)
                 (firstn (List.length (_sold_durations (self f)) - n)
                         (_sold_durations (self f))))).
Proof.
  revert f; induction n as [|n IH]; intros f Hn.
  - cbn [for_n ret]. rewrite Nat.sub_0_r, firstn_all, frame_eta. reflexivity.
  - destruct (exists_last (l := _sold_durations (self f))) as [l [x E]].
    { intro E; rewrite E in Hn; simpl in Hn; lia. }
    cbn [for_n]. unfold bind at 1. unfold bind at 1.
    rewrite (pop_last f l x E). cbn [ret].
    rewrite E in Hn. rewrite length_app in Hn. simpl in Hn.
    rewrite IH by (cbn; lia).
    cbn. rewrite E, length_app. simpl.
    replace (List.length l + 1 - S n)%nat with (List.length l - n)%nat by lia.
    rewrite firstn_app.
    replace (List.length l - n - List.length l)%nat with 0%nat by lia.
    simpl. rewrite app_nil_r. reflexivity.
Qed.

(** ** What the three mutations compute *)

Lemma record_transaction_run (f : Frame) (c : Z) (kind : string) :
  exists w',
    _record_transaction c kind f
    = (Ok (txn_in f c kind),
       mkFrame w' (set_transactions (self f)
                     (transactions (self f) ++ [txn_in f c kind]))).
Proof.
  destruct f as [w it]. eexists. cbv [_record_transaction bind in_world
    uuid4_str datetime_now get_self modify_self ret txn_in]. cbn.
  reflexivity.
Qed.

Lemma purchase_run (f : Frame) (qty : Z) :
  qty <= quantity (self f) ->
  exists txn w',
    purchase qty f
    = (Ok txn,
       mkFrame w'
         (mkStoreItem (name (self f)) (upc (self f))
            (quantity (self f) - qty) (category (self f))
            (location (self f)) (shelf_tracking (self f))
            (transactions (self f) ++ [txn])
            (_sold_durations (self f)
             ++ repeat (days_on_shelf_in f) (Z.to_nat qty))))
    /\ Transaction.quantity_change txn = - qty
    /\ Transaction.transaction_type txn = "purchase"
    /\ Transaction.storeitem_name txn = name (self f)
    /\ Transaction.location txn = location (self f).
Proof.
  destruct f as [w it]. cbn [self env].
  intro Hq. unfold purchase. unfold bind at 1. cbn [get_self self].
  destruct (Z.gtb_spec qty (quantity it)) as [Hgt|_]; [lia|].
  unfold bind at 1. unfold in_world at 1. cbn [datetime_now].
  unfold bind at 1. cbn [get_self].
  unfold bind at 1. unfold for_range. rewrite for_n_append.
  unfold bind at 1. cbn [modify_self].
  unfold bind at 1. cbn [get_self].
  unfold bind at 1. cbn [st_toast in_world emit].
  unfold bind at 1. cbn [print in_world emit].
  match goal with |- context [_record_transaction ?c ?k ?g] =>
    destruct (record_transaction_run g c k) as [w' E]; rewrite E end.
  eexists; eexists. split; [reflexivity | repeat split].
Qed.

Lemma purchase_raises (f : Frame) (qty : Z) :
  quantity (self f) < qty ->
  purchase qty f
  = (Raise (ValueError "Not enough inventory to purchase"), f).
Proof.
  intro Hq. unfold purchase. unfold bind at 1. cbn [get_self].
  destruct (Z.gtb_spec qty (quantity (self f))) as [_|Hle]; [|lia].
  reflexivity.
Qed.

Lemma popped_le (f : Frame) (qty : Z) :
  (popped f qty <= List.length (_sold_durations (self f)))%nat.
Proof. unfold popped. lia. Qed.

Lemma return_item_run (f : Frame) (qty : Z) :
  exists txn w',
    return_item qty f
    = (Ok txn,
       mkFrame w'
         (mkStoreItem (name (self f)) (upc (self f))
            (quantity (self f) + qty) (category (self f))
            (location (self f)) (shelf_tracking (self f))
            (transactions (self f) ++ [txn])
            (firstn (List.length (_sold_durations (self f)) - popped f qty)
                    (_sold_durations (self f)))))
    /\ Transaction.quantity_change txn = qty
    /\ Transaction.transaction_type txn = "return"
    /\ Transaction.storeitem_name txn = name (self f)
    /\ Transaction.location txn = location (self f).
Proof.
  pose proof (popped_le f qty) as Hp. unfold popped in *.
  destruct f as [w it]. cbn [self env] in *.
  unfold return_item. unfold bind at 1. cbn [get_self self].
  unfold bind at 1. unfold for_range. rewrite for_n_pop by exact Hp.
  unfold bind at 1. cbn [modify_self].
  unfold bind at 1. cbn [get_self].
  unfold bind at 1. cbn [st_toast in_world emit].
  unfold bind at 1. cbn [print in_world emit].
  match goal with |- context [_record_transaction ?c ?k ?g] =>
    destruct (record_transaction_run g c k) as [w' E]; rewrite E end.
  eexists; eexists. split; [reflexivity | repeat split].
Qed.

Lemma replenish_run (f : Frame) (qty : Z) :
  exists txn w',
    replenish qty f
    = (Ok txn,
       mkFrame w'
         (mkStoreItem (name (self f)) (upc (self f))
            (quantity (self f) + qty) (category (self f))
            (location (self f)) (shelf_tracking (self f))
            (transactions (self f) ++ [txn])
            (_sold_durations (self f))))
    /\ Transaction.quantity_change txn = qty
    /\ Transaction.transaction_type txn = "replenish"
    /\ Transaction.storeitem_name txn = name (self f)
    /\ Transaction.location txn = location (self f).
Proof.
  destruct f as [w it]. cbn [self env].
  unfold replenish. unfold bind at 1. cbn [modify_self].
  unfold bind at 1. cbn [get_self].
  unfold bind at 1. cbn [st_toast in_world emit].
  unfold bind at 1. cbn [print in_world emit].
  match goal with |- context [_record_transaction ?c ?k ?g] =>
    destruct (record_transaction_run g c k) as [w' E]; rewrite E end.
  eexists; eexists. split; [reflexivity | repeat split].
Qed.

Lemma advance_day_raises (f : Frame) :
  date_displayed (shelf_tracking (self f)) - timedelta_of_days 1
  < datetime_min ->
  advance_day f = (Raise (OverflowError "date value out of range"), f).
Proof.
  intro Hd. unfold advance_day. unfold bind at 1. cbn [get_self].
  destruct (Z.ltb_spec
              (date_displayed (shelf_tracking (self f)) - timedelta_of_days 1)
              datetime_min) as [_|Hge]; [reflexivity | lia].
Qed.

Lemma advance_day_run (f : Frame) :
  datetime_min
  <= date_displayed (shelf_tracking (self f)) - timedelta_of_days 1 ->
  exists w',
    advance_day f
    = (Ok tt,
       mkFrame w'
         (mkStoreItem (name (self f)) (upc (self f))
            (quantity (self f)) (category (self f))
            (location (self f))
            (mkShelfTracking
               (date_received (shelf_tracking (self f)))
               (date_displayed (shelf_tracking (self f))
                - timedelta_of_days 1))
            (transactions (self f)) (_sold_durations (self f)))).
Proof.
  destruct f as [w it]. cbn [self]. intro Hd. eexists.
  unfold advance_day. unfold bind at 1. cbn [get_self self].
  destruct (Z.ltb_spec
              (date_displayed (shelf_tracking it) - timedelta_of_days 1)
              datetime_min) as [Hlt|_]; [lia|].
  unfold bind at 1. cbn [modify_self].
  unfold bind at 1. cbn [get].
  cbn [print in_world emit]. reflexivity.
Qed.

(** ** Whole days *)

Lemma usec_per_day_pos : 0 < usec_per_day.
Proof. reflexivity. Qed.

(** [days] counts the whole days that fit into a non-negative span. *)
Lemma days_whole (td : timedelta) :
  days td * usec_per_day <= td < (days td + 1) * usec_per_day.
Proof.
  unfold days. pose proof usec_per_day_pos as Hp.
  pose proof (Z.div_mod td usec_per_day ltac:(lia)) as Hd.
  pose proof (Z.mod_pos_bound td usec_per_day Hp) as Hm.
  lia.
Qed.

Lemma days_nonneg (td : timedelta) : 0 <= td -> 0 <= days td.
Proof.
  intro H. unfold days. apply Z.div_pos; [exact H | exact usec_per_day_pos].
Qed.

Lemma days_neg (td : timedelta) : td < 0 -> days td < 0.
Proof.
  intro H. unfold days. apply Z.div_lt_upper_bound;
    [exact usec_per_day_pos | lia].
Qed.

(** ** purchase *)

(** C1: a purchase of [qty] with [1 <= qty <= quantity] succeeds; with
    [days_on_shelf] the whole days from the display date to the clock
    reading, floored at zero, it appends exactly [qty] copies of
    [days_on_shelf] to [_sold_durations], takes [qty] off [quantity], appends
    one transaction of change [-qty] and type purchase to the log, and
    returns that transaction. *)
Theorem purchase_sells (f : Frame) (qty : Z) :
  1 <= qty <= quantity (self f) ->
  let span := sell_date_in f - date_displayed (shelf_tracking (self f)) in
  let days_on_shelf := days_on_shelf_in f in
  (0 <= span ->
   days_on_shelf * usec_per_day <= span < (days_on_shelf + 1) * usec_per_day)
  /\ (span < 0 -> days_on_shelf = 0)
  /\ exists txn f',
       purchase qty f = (Ok txn, f')
       /\ _sold_durations (self f')
          = _sold_durations (self f) ++ repeat days_on_shelf (Z.to_nat qty)
       /\ Z.of_nat (List.length (repeat days_on_shelf (Z.to_nat qty))) = qty
       /\ quantity (self f') = quantity (self f) - qty
       /\ transactions (self f') = transactions (self f) ++ [txn]
       /\ Transaction.quantity_change txn = - qty
       /\ Transaction.transaction_type txn = "purchase".
Proof.
  intros Hq span d. subst d. unfold days_on_shelf_in. fold span.
  split; [|split].
  - intro Hs. pose proof (days_nonneg span Hs).
    rewrite Z.max_r by assumption. apply days_whole.
  - intro Hs. pose proof (days_neg span Hs). lia.
  - destruct (purchase_run f qty) as (txn & w' & E & Hc & Ht & _); [lia|].
    exists txn. eexists. split; [exact E|]. cbn.
    rewrite repeat_length. repeat split; try assumption; try lia.
Qed.

Lemma purchase_sells_witness :
  1 <= 5 <= quantity (self sample_frame)
  /\ exists txn f',
       purchase 5 sample_frame = (Ok txn, f')
       /\ _sold_durations (self f') = [5; 5; 5; 5; 5]
       /\ quantity (self f') = 15
       /\ transactions (self f') = [txn]
       /\ Transaction.quantity_change txn = -5.
Proof.
  assert (H : 1 <= 5 <= quantity (self sample_frame)) by (simpl; lia).
  split; [exact H|].
  destruct (purchase_sells sample_frame 5 H)
    as (_ & _ & txn & f' & E & Hd & _ & Hq & Ht & Hc & _).
  exists txn, f'. repeat split; assumption.
Defined.

(** C2: a purchase of more than the stock on hand raises the
    not-enough-inventory error ([ValueError] in the source) and leaves the
    whole frame, hence the item's quantity, transaction log and
    [_sold_durations], exactly as it was. *)
Theorem purchase_insufficient (f : Frame) (qty : Z) :
  quantity (self f) < qty ->
  exists f',
    purchase qty f
    = (Raise (ValueError "Not enough inventory to purchase"), f')
    /\ f' = f
    /\ quantity (self f') = quantity (self f)
    /\ transactions (self f') = transactions (self f)
    /\ _sold_durations (self f') = _sold_durations (self f).
Proof.
  intro Hq. exists f. rewrite (purchase_raises f qty Hq). repeat split.
Qed.

Lemma purchase_insufficient_witness :
  quantity (self sample_frame) < 21
  /\ exists f',
       purchase 21 sample_frame
       = (Raise (ValueError "Not enough inventory to purchase"), f')
       /\ f' = sample_frame.
Proof.
  assert (H : quantity (self sample_frame) < 21) by (simpl; lia).
  split; [exact H|].
  destruct (purchase_insufficient sample_frame 21 H) as (f' & E & Hf & _).
  exists f'. split; assumption.
Defined.

(** The scenario of the specification: twenty units, [purchase(5)], then
    a failing [purchase(20)] that leaves fifteen. *)
Example purchase_scenario :
  let f1 := snd (purchase 5 sample_frame) in
  quantity (self f1) = 15
  /\ map Transaction.quantity_change (transactions (self f1)) = [-5]
  /\ fst (purchase 20 f1)
     = Raise (ValueError "Not enough inventory to purchase")
  /\ quantity (self (snd (purchase 20 f1))) = 15.
Proof. vm_compute. repeat split. Qed.

(** ** return_item *)

(** C3: a return of [qty >= 1] succeeds; it takes exactly
    [min(qty, len(_sold_durations))] entries off the end of
    [_sold_durations], adds the full [qty] to [quantity], appends one
    transaction of change [+qty] and type return to the log, and returns
    that transaction. *)
Theorem return_item_returns (f : Frame) (qty : Z) :
  1 <= qty ->
  exists txn f' removed,
    return_item qty f = (Ok txn, f')
    /\ _sold_durations (self f) = _sold_durations (self f') ++ removed
    /\ Z.of_nat (List.length removed)
       = Z.min qty (Z.of_nat (List.length (_sold_durations (self f))))
    /\ quantity (self f') = quantity (self f) + qty
    /\ transactions (self f') = transactions (self f) ++ [txn]
    /\ Transaction.quantity_change txn = qty
    /\ Transaction.transaction_type txn = "return".
Proof.
  intro Hq.
  destruct (return_item_run f qty) as (txn & w' & E & Hc & Ht & _).
  pose proof (popped_le f qty) as Hp.
  set (l := _sold_durations (self f)) in *.
  exists txn. eexists.
  exists (skipn (List.length l - popped f qty) l).
  split; [exact E|]. cbn. fold l.
  split; [symmetry; apply firstn_skipn|].
  split; [|repeat split; assumption].
  rewrite length_skipn. unfold popped in *. fold l in Hp |- *. lia.
Qed.

Lemma return_item_returns_witness :
  1 <= 7
  /\ exists txn f',
       return_item 7 (snd (purchase 5 sample_frame)) = (Ok txn, f')
       /\ _sold_durations (self f') = []
       /\ quantity (self f') = 22.
Proof.
  assert (H : 1 <= 7) by lia.
  split; [exact H|].
  destruct (return_item_returns (snd (purchase 5 sample_frame)) 7 H)
    as (txn & f' & removed & E & Hd & Hl & Hq & _).
  exists txn, f'. split; [exact E|]. split; [|exact Hq].
  assert (E5 : _sold_durations (self (snd (purchase 5 sample_frame)))
               = [5; 5; 5; 5; 5]) by (vm_compute; reflexivity).
  rewrite E5 in Hd, Hl.
  destruct (_sold_durations (self f')) as [|x r]; [reflexivity|].
  exfalso. apply (f_equal (@List.length Z)) in Hd.
  rewrite length_app in Hd. simpl in Hd, Hl. lia.
Defined.

(** ** purchase, then return_item *)

Lemma purchase_then_return_run (f : Frame) (qty : Z) :
  0 <= qty <= quantity (self f) ->
  exists txn f2,
    (purchase qty ;; return_item qty) f = (Ok txn, f2)
    /\ quantity (self f2) = quantity (self f)
    /\ _sold_durations (self f2) = _sold_durations (self f).
Proof.
  intro Hq.
  destruct (purchase_run f qty) as (t1 & w1 & E1 & _); [lia|].
  unfold bind. rewrite E1.
  match goal with |- context [return_item qty ?g] =>
    destruct (return_item_run g qty) as (t2 & w2 & E2 & _); rewrite E2 end.
  exists t2. eexists. split; [reflexivity|]. cbn.
  split; [lia|].
  unfold popped. cbn. rewrite length_app, repeat_length.
  set (n := List.length (_sold_durations (self f))).
  replace (n + Z.to_nat qty
           - Z.to_nat (Z.min qty (Z.of_nat (n + Z.to_nat qty))))%nat
    with (n + 0)%nat by lia.
  subst n. rewrite firstn_app_2. simpl. apply app_nil_r.
Qed.

(** C7: [purchase(qty)] followed at once by [return_item(qty)], with
    [1 <= qty <= quantity], brings [quantity] back to what it was. *)
Theorem purchase_then_return_quantity (f : Frame) (qty : Z) :
  1 <= qty <= quantity (self f) ->
  exists txn f2,
    (purchase qty ;; return_item qty) f = (Ok txn, f2)
    /\ quantity (self f2) = quantity (self f).
Proof.
  intro Hq.
  destruct (purchase_then_return_run f qty) as (txn & f2 & E & Hquant & _);
    [lia|].
  exists txn, f2. split; assumption.
Qed.

Lemma purchase_then_return_quantity_witness :
  1 <= 4 <= quantity (self sample_frame)
  /\ exists txn f2,
       (purchase 4 ;; return_item 4) sample_frame = (Ok txn, f2)
       /\ quantity (self f2) = 20.
Proof.
  assert (H : 1 <= 4 <= quantity (self sample_frame)) by (simpl; lia).
  split; [exact H|].
  exact (purchase_then_return_quantity sample_frame 4 H).
Defined.

(** In that sequence the entries the return pops are the ones the
    purchase has just appended, so [_sold_durations] comes back too. *)
Lemma purchase_then_return_durations (f : Frame) (qty : Z) :
  1 <= qty <= quantity (self f) ->
  _sold_durations (self (snd ((purchase qty ;; return_item qty) f)))
  = _sold_durations (self f).
Proof.
  intro Hq.
  destruct (purchase_then_return_run f qty) as (txn & f2 & E & _ & Hd);
    [lia|].
  rewrite E. exact Hd.
Qed.

(** ** Sidebar actions *)

(** The frame an action leaves, case by case. *)
Lemma handled_cases (f : Frame) (a : action) :
  match a with
  | Sell qty =>
      if qty >? quantity (self f)
      then perform a f
           = (Raise (ValueError "Not enough inventory to purchase"), f)
      else exists txn w',
          perform a f
          = (Ok tt,
             mkFrame w'
               (mkStoreItem (name (self f)) (upc (self f))
                  (quantity (self f) - qty) (category (self f))
                  (location (self f)) (shelf_tracking (self f))
                  (transactions (self f) ++ [txn])
                  (_sold_durations (self f)
                   ++ repeat (days_on_shelf_in f) (Z.to_nat qty))))
          /\ Transaction.quantity_change txn = - qty
          /\ Transaction.transaction_type txn = "purchase"
  | Restock qty =>
      exists txn w',
        perform a f
        = (Ok tt,
           mkFrame w'
             (mkStoreItem (name (self f)) (upc (self f))
                (quantity (self f) + qty) (category (self f))
                (location (self f)) (shelf_tracking (self f))
                (transactions (self f) ++ [txn])
                (_sold_durations (self f))))
        /\ Transaction.quantity_change txn = qty
        /\ Transaction.transaction_type txn = "replenish"
  | Return qty =>
      exists txn w',
        perform a f
        = (Ok tt,
           mkFrame w'
             (mkStoreItem (name (self f)) (upc (self f))
                (quantity (self f) + qty) (category (self f))
                (location (self f)) (shelf_tracking (self f))
                (transactions (self f) ++ [txn])
                (firstn (List.length (_sold_durations (self f))
                         - popped f qty)
                        (_sold_durations (self f)))))
        /\ Transaction.quantity_change txn = qty
        /\ Transaction.transaction_type txn = "return"
  | DayPassing =>
      if date_displayed (shelf_tracking (self f)) - timedelta_of_days 1
         <? datetime_min
      then perform a f
           = (Raise (OverflowError "date value out of range"), f)
      else exists w',
        perform a f
        = (Ok tt,
           mkFrame w'
             (mkStoreItem (name (self f)) (upc (self f))
                (quantity (self f)) (category (self f))
                (location (self f))
                (mkShelfTracking
                   (date_received (shelf_tracking (self f)))
                   (date_displayed (shelf_tracking (self f))
                    - timedelta_of_days 1))
                (transactions (self f)) (_sold_durations (self f))))
  end.
Proof.
  destruct a as [qty|qty|qty|]; cbn [perform].
  - destruct (Z.gtb_spec qty (quantity (self f))) as [Hgt|Hle].
    + unfold bind. rewrite purchase_raises by lia. reflexivity.
    + destruct (purchase_run f qty Hle) as (txn & w' & E & Hc & Ht & _).
      exists txn, w'. unfold bind. rewrite E. repeat split; assumption.
  - destruct (replenish_run f qty) as (txn & w' & E & Hc & Ht & _).
    exists txn, w'. unfold bind. rewrite E. repeat split; assumption.
  - destruct (return_item_run f qty) as (txn & w' & E & Hc & Ht & _).
    exists txn, w'. unfold bind. rewrite E. repeat split; assumption.
  - destruct (Z.ltb_spec
                (date_displayed (shelf_tracking (self f))
                 - timedelta_of_days 1) datetime_min) as [Hlt|Hge].
    + apply advance_day_raises, Hlt.
    + apply advance_day_run, Hge.
Qed.

(** Case analysis on the action of [handled f a], with the frame it
    leaves rewritten in the goal. *)
Ltac handled_cases f a :=
  let H := fresh "H" in
  pose proof (handled_cases f a) as H; unfold handled;
  destruct a as [?qty|?qty|?qty|];
  [ destruct (Z.gtb_spec qty (quantity (self f)));
    [ rewrite H
    | let txn := fresh "txn" in let w := fresh "w" in
      destruct H as (txn & w & -> & ? & ?) ]
  | let txn := fresh "txn" in let w := fresh "w" in
    destruct H as (txn & w & -> & ? & ?)
  | let txn := fresh "txn" in let w := fresh "w" in
    destruct H as (txn & w & -> & ? & ?)
  | destruct (Z.ltb_spec
                (date_displayed (shelf_tracking (self f))
                 - timedelta_of_days 1) datetime_min);
    [ rewrite H
    | let w := fresh "w" in destruct H as (w & ->) ] ];
  cbn [snd fst self env quantity transactions _sold_durations name upc
       category location shelf_tracking].

(** A valid action does not raise, but for the day passing that would
    cross [datetime.min]. *)
Lemma valid_action_ok (f : Frame) (a : action) :
  valid_action a (self f) = true ->
  fst (perform a f) = Ok tt
  \/ (a = DayPassing
      /\ perform a f
         = (Raise (OverflowError "date value out of range"), f)).
Proof.
  intro Hv. pose proof (handled_cases f a) as H.
  destruct a as [qty|qty|qty|]; cbn [valid_action] in Hv.
  - destruct (Z.gtb_spec qty (quantity (self f))); [lia|].
    destruct H as (txn & w & -> & _). left. reflexivity.
  - destruct H as (txn & w & -> & _). left. reflexivity.
  - destruct H as (txn & w & -> & _). left. reflexivity.
  - destruct (Z.ltb_spec
                (date_displayed (shelf_tracking (self f))
                 - timedelta_of_days 1) datetime_min).
    + right. split; [reflexivity | exact H].
    + destruct H as (w & ->). left. reflexivity.
Qed.

Lemma valid_action_quantity (f : Frame) (a : action) :
  valid_action a (self f) = true ->
  0 <= quantity (self f) -> 0 <= quantity (self (handled f a)).
Proof.
  intros Hv Hq. handled_cases f a; cbn [valid_action] in Hv; lia.
Qed.

(** C4: from an item whose quantity is not negative, a session of valid
    actions (sales of at least one and at most the stock on hand, returns
    and restocks of at least one, day passings) ends with a quantity that
    is not negative; no sale, return or restock of it raises, and a day
    passing raises only where it would cross [datetime.min], changing
    nothing. *)
Theorem valid_session_quantity (acts : list action) (f : Frame) :
  0 <= quantity (self f) ->
  valid_session acts f = true ->
  all_succeed acts f /\ 0 <= quantity (self (session acts f)).
Proof.
  revert f; induction acts as [|a rest IH]; intros f Hq Hv.
  - split; [exact I | exact Hq].
  - cbn [valid_session] in Hv. apply andb_true_iff in Hv as [Ha Hrest].
    destruct (IH (handled f a)) as [Hok Hfin];
      [apply valid_action_quantity; assumption | exact Hrest |].
    split; [|exact Hfin].
    split; [apply valid_action_ok; exact Ha | exact Hok].
Qed.

Lemma valid_session_quantity_witness :
  0 <= quantity (self sample_frame)
  /\ valid_session [Sell 20; Return 3; DayPassing; Sell 2; Restock 1]
       sample_frame = true
  /\ 0 <= quantity
            (self (session [Sell 20; Return 3; DayPassing; Sell 2; Restock 1]
                     sample_frame)).
Proof.
  assert (H0 : 0 <= quantity (self sample_frame)) by (simpl; lia).
  assert (H1 : valid_session [Sell 20; Return 3; DayPassing; Sell 2; Restock 1]
                 sample_frame = true) by (vm_compute; reflexivity).
  split; [exact H0|]. split; [exact H1|].
  exact (proj2 (valid_session_quantity _ sample_frame H0 H1)).
Defined.

(** ** Sums and means *)

Lemma fold_left_add_acc (l : list Z) (a : Z) :
  fold_left Z.add l a = a + sum l.
Proof.
  unfold sum. revert a; induction l as [|x l IH]; intro a; simpl.
  - lia.
  - rewrite IH, (IH x). lia.
Qed.

Lemma sum_cons (x : Z) (l : list Z) : sum (x :: l) = x + sum l.
Proof. unfold sum at 1. simpl. apply fold_left_add_acc. Qed.

Lemma sum_app (l1 l2 : list Z) : sum (l1 ++ l2) = sum l1 + sum l2.
Proof.
  induction l1 as [|x l1 IH]; simpl.
  - reflexivity.
  - rewrite !sum_cons, IH. lia.
Qed.

Lemma sum_nonneg (l : list Z) : Forall (fun d => 0 <= d) l -> 0 <= sum l.
Proof.
  induction 1 as [|x l Hx _ IH]; [reflexivity|].
  rewrite sum_cons. lia.
Qed.

Lemma sum_fold_right (l : list Z) : sum l = fold_right Z.add 0 l.
Proof.
  induction l as [|x l IH]; [reflexivity|].
  rewrite sum_cons, IH. reflexivity.
Qed.




Lemma round_half_even_nonneg (n d : Z) :
  0 <= n -> 0 <= d -> 0 <= round_half_even n d.
Proof.
  intros Hn Hd. unfold round_half_even.
  assert (Hq : 0 <= n / d).
  { destruct (Z.eq_dec d 0) as [->|Hne]; [rewrite Z.div_0_r; lia|].
    apply Z.div_pos; lia. }
  destruct (2 * (n mod d) <? d); [exact Hq|].
  destruct (d <? 2 * (n mod d)); [lia|].
  destruct (Z.even (n / d)); lia.
Qed.

Lemma scaled_nonneg (p d e : Z) :
  0 <= p -> 0 <= d -> 0 <= fst (scaled p d e) /\ 0 <= snd (scaled p d e).
Proof.
  intros Hp Hd. unfold scaled.
  destruct (0 <=? e); cbn [fst snd]; split; try assumption;
    apply Z.mul_nonneg_nonneg; try assumption; apply Z.pow_nonneg; lia.
Qed.

Lemma float_of_ratio_pos_nonneg (p d : Z) :
  0 <= p -> 0 <= d -> (0 <= float_of_ratio_pos p d)%Q.
Proof.
  intros Hp Hd. unfold float_of_ratio_pos.
  pose proof (scaled_nonneg p d (binade p d) Hp Hd) as [Hn Hm].
  destruct (scaled p d (binade p d)) as [n m]. cbn [fst snd] in *.
  pose proof (round_half_even_nonneg n m Hn Hm) as Hk.
  rewrite Qred_correct.
  destruct (0 <=? binade p d); unfold Qle; cbn [Qnum Qden inject_Z].
  - assert (0 <= 2 ^ binade p d) by (apply Z.pow_nonneg; lia). nia.
  - lia.
Qed.

(** The float of a quotient that is not negative is not negative. *)
Lemma float_of_ratio_nonneg (num den : Z) :
  0 <= num -> 0 <= den -> (0 <= float_of_ratio num den)%Q.
Proof.
  intros Hn Hd. unfold float_of_ratio.
  destruct num as [|pn|pn]; [discriminate | | lia].
  apply float_of_ratio_pos_nonneg; lia.
Qed.

Lemma mean_number_nonneg (l : list Z) :
  Forall (fun d => 0 <= d) l -> (0 <= number_value (mean_number l))%Q.
Proof.
  intro Hl. pose proof (sum_nonneg l Hl) as Hs. unfold mean_number.
  destruct (sum l mod Z.of_nat (List.length l) =? 0); cbn [number_value].
  - unfold Qle. cbn [Qnum Qden inject_Z].
    assert (0 <= sum l / Z.of_nat (List.length l)); [|lia].
    destruct (List.length l); [rewrite Z.div_0_r; lia|].
    apply Z.div_pos; lia.
  - apply float_of_ratio_nonneg; lia.
Qed.


Lemma round_half_even_mono_bounds (n d lo hi : Z) :
  0 < d -> lo * d <= n -> n <= hi * d ->
  lo <= round_half_even n d <= hi.
Proof.
  intros Hd Hlo Hhi. unfold round_half_even.
  pose proof (Z.div_mod n d ltac:(lia)) as E.
  pose proof (Z.mod_pos_bound n d Hd) as Hr.
  assert (Hq1 : lo <= n / d) by (apply Z.div_le_lower_bound; lia).
  assert (Hq2 : n / d <= hi) by (apply Z.div_le_upper_bound; lia).
  assert (Hfull : n mod d = 0 \/ n / d < hi).
  { destruct (Z.eq_dec (n / d) hi) as [Eh|]; [left; nia | right; lia]. }
  destruct (Z.ltb_spec (2 * (n mod d)) d); [lia|].
  destruct (Z.ltb_spec d (2 * (n mod d))); [lia|].
  destruct (Z.even (n / d)); lia.
Qed.

(** The factor of a [scaled] pair. *)
Lemma scaled_step (p d e : Z) :
  0 < p -> 0 < d ->
  fst (scaled p d (e - 1)) * snd (scaled p d e)
  = 2 * fst (scaled p d e) * snd (scaled p d (e - 1))
  /\ 0 < fst (scaled p d e) /\ 0 < snd (scaled p d e).
Proof.
  intros Hp Hd. unfold scaled.
  destruct (Z.leb_spec 0 e) as [He|He];
    destruct (Z.leb_spec 0 (e - 1)) as [He1|He1]; cbn [fst snd]; try lia.
  - assert (E2 : 2 ^ e = 2 * 2 ^ (e - 1)).
    { rewrite <- Z.pow_succ_r by lia. f_equal. lia. }
    assert (0 < 2 ^ (e - 1)) by (apply Z.pow_pos_nonneg; lia).
    rewrite E2. repeat split; nia.
  - assert (e = 0) by lia. subst e.
    change (2 ^ (- (0 - 1))) with 2. change (2 ^ 0) with 1.
    repeat split; lia.
  - assert (E2 : 2 ^ (- (e - 1)) = 2 * 2 ^ (- e)).
    { rewrite <- Z.pow_succ_r by lia. f_equal. lia. }
    assert (0 < 2 ^ (- e)) by (apply Z.pow_pos_nonneg; lia).
    rewrite E2. repeat split; nia.
Qed.

Lemma scaled_first (p d : Z) :
  0 < p -> 0 < d ->
  let e0 := Z.log2 p - Z.log2 d - 52 in
  2 ^ 51 * snd (scaled p d e0) < fst (scaled p d e0)
  /\ fst (scaled p d e0) < 2 ^ 53 * snd (scaled p d e0).
Proof.
  intros Hp Hd. cbv zeta.
  pose proof (Z.log2_spec p Hp) as [Hp1 Hp2].
  pose proof (Z.log2_spec d Hd) as [Hd1 Hd2].
  pose proof (Z.log2_nonneg p) as Ha. pose proof (Z.log2_nonneg d) as Hb.
  set (a := Z.log2 p) in *. set (b := Z.log2 d) in *.
  rewrite Z.pow_succ_r in Hp2, Hd2 by lia.
  assert (Pa : 0 < 2 ^ a) by (apply Z.pow_pos_nonneg; lia).
  assert (Pb : 0 < 2 ^ b) by (apply Z.pow_pos_nonneg; lia).
  unfold scaled. destruct (Z.leb_spec 0 (a - b - 52)) as [He|He];
    cbn [fst snd].
  - assert (Ea : 2 ^ a = 2 ^ b * 2 ^ 52 * 2 ^ (a - b - 52)).
    { rewrite <- !Z.pow_add_r by lia. f_equal. lia. }
    assert (Pe : 0 < 2 ^ (a - b - 52)) by (apply Z.pow_pos_nonneg; lia).
    set (E := 2 ^ (a - b - 52)) in *. set (A := 2 ^ a) in *.
    set (B := 2 ^ b) in *. change (2 ^ 52) with 4503599627370496 in *.
    change (2 ^ 51) with 2251799813685248. change (2 ^ 53) with 9007199254740992.
    split; nia.
  - assert (Ea : 2 ^ a * 2 ^ (- (a - b - 52)) = 2 ^ b * 2 ^ 52).
    { rewrite <- !Z.pow_add_r by lia. f_equal. lia. }
    assert (Pe : 0 < 2 ^ (- (a - b - 52))) by (apply Z.pow_pos_nonneg; lia).
    set (E := 2 ^ (- (a - b - 52))) in *. set (A := 2 ^ a) in *.
    set (B := 2 ^ b) in *. change (2 ^ 52) with 4503599627370496 in *.
    change (2 ^ 51) with 2251799813685248. change (2 ^ 53) with 9007199254740992.
    split; nia.
Qed.

(** [binade] puts the quotient between [2 ^ 52] and [2 ^ 53]. *)
Lemma binade_bounds (p d : Z) :
  0 < p -> 0 < d ->
  2 ^ 52 * snd (scaled p d (binade p d)) <= fst (scaled p d (binade p d))
  /\ fst (scaled p d (binade p d)) < 2 ^ 53 * snd (scaled p d (binade p d)).
Proof.
  intros Hp Hd. unfold binade.
  pose proof (scaled_first p d Hp Hd) as [H1 H2]. cbv zeta in H1, H2.
  set (e0 := Z.log2 p - Z.log2 d - 52) in *.
  pose proof (scaled_step p d e0 Hp Hd) as (Hs & Hn & Hm).
  destruct (scaled p d e0) as [n m] eqn:E0. cbn [fst snd] in *.
  change (2 ^ 52) with 4503599627370496 in *.
  change (2 ^ 51) with 2251799813685248 in *.
  change (2 ^ 53) with 9007199254740992 in *.
  destruct (Z.ltb_spec (n / m) 4503599627370496) as [Hlt|Hge].
  - assert (Hnm : n < 4503599627370496 * m).
    { pose proof (Z.div_mod n m ltac:(lia)).
      pose proof (Z.mod_pos_bound n m Hm). nia. }
    pose proof (scaled_step p d (e0 - 1) Hp Hd) as (_ & Hn' & Hm').
    destruct (scaled p d (e0 - 1)) as [n' m']. cbn [fst snd] in *.
    split; nia.
  - rewrite E0. cbn [fst snd].
    assert (Hnm : 4503599627370496 * m <= n).
    { pose proof (Z.div_mod n m ltac:(lia)).
      pose proof (Z.mod_pos_bound n m Hm). nia. }
    split; lia.
Qed.


(** The significand has 53 bits. *)
Lemma float_of_ratio_pos_bits (p d : Z) :
  0 < p -> 0 < d ->
  exists k e,
    2 ^ 52 <= k <= 2 ^ 53
    /\ (float_of_ratio_pos p d
        == if 0 <=? e then inject_Z (k * 2 ^ e)
           else k # Z.to_pos (2 ^ (- e)))%Q.
Proof.
  intros Hp Hd. unfold float_of_ratio_pos.
  pose proof (binade_bounds p d Hp Hd) as [Hlo Hhi].
  pose proof (scaled_step p d (binade p d) Hp Hd) as (_ & Hn & Hm).
  destruct (scaled p d (binade p d)) as [n m]. cbn [fst snd] in *.
  exists (round_half_even n m), (binade p d).
  split; [apply round_half_even_mono_bounds; lia|].
  apply Qred_correct.
Qed.


(** Values that Python's true division gives. *)
Example float_of_ratio_values :
  float_of_ratio 1 3 = 6004799503160661 # 18014398509481984
  /\ float_of_ratio 2 3 = 6004799503160661 # 9007199254740992
  /\ float_of_ratio 4 3 = 6004799503160661 # 4503599627370496
  /\ float_of_ratio 1 10 = 3602879701896397 # 36028797018963968
  /\ float_of_ratio 5 2 = 5 # 2
  /\ float_of_ratio 22 7 = 7077085128725065 # 2251799813685248
  /\ float_of_ratio (-7) 3 = (-5254199565265579) # 2251799813685248
  /\ float_of_ratio 18014398509481987 4 = 4503599627370497 # 1
  /\ float_of_ratio 9007199254740993 2 = 4503599627370496 # 1
  /\ float_of_ratio 1000000000000000000000000000001 3
     = 333333333333333316505293553664 # 1.
Proof. vm_compute. repeat split. Qed.

(** The property reads the frame and leaves it as it is. *)
Lemma average_days_to_sell_run (f : Frame) :
  average_days_to_sell f
  = (match _sold_durations (self f) with
     | [] => Ok (PyInt 0)
     | _ :: _ => Ok (mean_number (_sold_durations (self f)))
     end, f).
Proof.
  unfold average_days_to_sell, bind, get_self.
  destruct (_sold_durations (self f)); reflexivity.
Qed.

(** ** Invariants of the reachable states *)

Lemma handled_durations_nonneg (f : Frame) (a : action) :
  Forall (fun d => 0 <= d) (_sold_durations (self f)) ->
  Forall (fun d => 0 <= d) (_sold_durations (self (handled f a))).
Proof.
  intro Hd. handled_cases f a; try exact Hd.
  - apply Forall_app. split; [exact Hd|].
    apply Forall_forall. intros x Hx. apply repeat_spec in Hx. subst x.
    unfold days_on_shelf_in. lia.
  - rewrite <- (firstn_skipn
                  (List.length (_sold_durations (self f)) - popped f qty))
      in Hd.
    apply Forall_app in Hd. exact (proj1 Hd).
Qed.

Lemma reachable_durations_nonneg (it : StoreItem) :
  reachable it -> Forall (fun d => 0 <= d) (_sold_durations it).
Proof.
  induction 1 as [n u q c l s | f a _ IH].
  - constructor.
  - apply handled_durations_nonneg. exact IH.
Qed.



Lemma reachable_session (acts : list action) (f : Frame) :
  reachable (self f) -> reachable (self (session acts f)).
Proof.
  revert f; induction acts as [|a rest IH]; intros f Hr; [exact Hr|].
  apply IH. apply reachable_step. exact Hr.
Qed.

(** ** average_days_to_sell *)



(** A read after a mutation sees the mutation: two days on the shelf for
    one unit, then, a day later, three days for a second unit. *)
Example average_days_to_sell_fresh :
  let f0 := mkFrame sample_world
              (set_shelf_tracking sample_item
                 (mkShelfTracking (timedelta_of_days 990)
                                  (timedelta_of_days 998))) in
  let f1 := snd (purchase 1 f0) in
  let f2 := snd (purchase 1 (snd (advance_day f1))) in
  fst (average_days_to_sell f0) = Ok (PyInt 0)
  /\ fst (average_days_to_sell f1) = Ok (PyInt 2)
  /\ fst (average_days_to_sell f2) = Ok (PyFloat (5 # 2)).
Proof. vm_compute. repeat split. Qed.

(** C10: in every reachable state of an item all entries of
    [_sold_durations] are non-negative, and [average_days_to_sell] is
    non-negative. *)
Theorem sold_durations_nonneg (f : Frame) :
  reachable (self f) ->
  Forall (fun d => 0 <= d) (_sold_durations (self f))
  /\ exists q, average_days_to_sell f = (Ok q, f)
               /\ (0 <= number_value q)%Q.
Proof.
  intro Hr. pose proof (reachable_durations_nonneg _ Hr) as Hd.
  split; [exact Hd|]. rewrite average_days_to_sell_run.
  destruct (_sold_durations (self f)) as [|x l] eqn:E.
  - exists (PyInt 0). split; [reflexivity|]. discriminate.
  - eexists. split; [reflexivity|]. apply mean_number_nonneg. exact Hd.
Qed.

Lemma sold_durations_nonneg_witness :
  reachable (self (session [Sell 3; Return (-2); Sell 30; DayPassing; Sell 1]
                     sample_frame))
  /\ Forall (fun d => 0 <= d)
       (_sold_durations
          (self (session [Sell 3; Return (-2); Sell 30; DayPassing; Sell 1]
                   sample_frame))).
Proof.
  assert (H : reachable
                (self (session
                         [Sell 3; Return (-2); Sell 30; DayPassing; Sell 1]
                         sample_frame))).
  { apply reachable_session. apply reachable_new. }
  split; [exact H|].
  exact (proj1 (sold_durations_nonneg _ H)).
Defined.

(** ** total_units_sold *)

Lemma sum_flat_map {A} (g : A -> list Z) (l : list A) :
  sum (flat_map g l) = fold_right Z.add 0 (map (fun x => sum (g x)) l).
Proof.
  induction l as [|x l IH]; [reflexivity|].
  cbn [flat_map map fold_right]. rewrite sum_app, IH. reflexivity.
Qed.

Lemma well_signed_purchases (txns : list Transaction.t) :
  forallb well_signed txns = true ->
  sum (map (fun t => - Transaction.quantity_change t)
           (filter (has_type "purchase") txns))
  = fold_right Z.add 0
      (map (fun t => Z.abs (Transaction.quantity_change t))
           (filter (has_type "purchase") txns)).
Proof.
  induction txns as [|t txns IH]; [reflexivity|].
  cbn [forallb filter]. intro H. apply andb_true_iff in H as [Ht Hr].
  unfold well_signed in Ht.
  destruct (has_type "purchase" t); [|exact (IH Hr)].
  cbn [map fold_right]. rewrite sum_cons, (IH Hr). lia.
Qed.

Lemma well_signed_returns (txns : list Transaction.t) :
  forallb well_signed txns = true ->
  sum (map (fun t => Transaction.quantity_change t)
           (filter (has_type "return") txns))
  = fold_right Z.add 0
      (map (fun t => Z.abs (Transaction.quantity_change t))
           (filter (has_type "return") txns)).
Proof.
  induction txns as [|t txns IH]; [reflexivity|].
  cbn [forallb filter]. intro H. apply andb_true_iff in H as [Ht Hr].
  unfold well_signed in Ht.
  destruct (has_type "return" t) eqn:Er; [|exact (IH Hr)].
  assert (Ep : has_type "purchase" t = false).
  { unfold has_type in *. apply String.eqb_eq in Er. rewrite Er.
    reflexivity. }
  rewrite Ep in Ht.
  cbn [map fold_right]. rewrite sum_cons, (IH Hr). lia.
Qed.

Lemma filter_without_replenish (k : string) (txns : list Transaction.t) :
  String.eqb k "replenish" = false ->
  filter (has_type k)
    (filter (fun t => negb (has_type "replenish" t)) txns)
  = filter (has_type k) txns.
Proof.
  intro Hk. induction txns as [|t txns IH]; [reflexivity|].
  cbn [filter]. destruct (has_type "replenish" t) eqn:Er; cbn [negb filter].
  - assert (Ek : has_type k t = false).
    { unfold has_type in *. apply String.eqb_eq in Er. rewrite Er.
      rewrite String.eqb_sym. exact Hk. }
    rewrite Ek. exact IH.
  - rewrite IH. reflexivity.
Qed.

(** C6: over a collection whose logs follow the sign convention,
    [total_units_sold] is the sum over the items of the magnitudes of their
    purchase transactions minus the sum over the items of the magnitudes of
    their return transactions; replenish transactions do not count. *)
Theorem total_units_sold_net (items : list StoreItem) :
  ledger_well_signed items = true ->
  total_units_sold items = net_units_sold items
  /\ total_units_sold (map without_replenish items) = total_units_sold items.
Proof.
  intro Hs. split.
  - unfold total_units_sold, net_units_sold. rewrite !sum_flat_map.
    unfold ledger_well_signed in Hs.
    induction items as [|it items IH]; [reflexivity|].
    cbn [forallb] in Hs. apply andb_true_iff in Hs as [Hit Hrest].
    specialize (IH Hrest). cbn [map fold_right].
    rewrite (well_signed_purchases _ Hit), (well_signed_returns _ Hit).
    unfold magnitudes at 1 3. lia.
  - unfold total_units_sold. rewrite !flat_map_concat_map, !map_map.
    unfold without_replenish. cbn [transactions set_transactions].
    f_equal; f_equal; f_equal; apply map_ext; intro it;
      rewrite filter_without_replenish; reflexivity.
Qed.

(** A valid action keeps the log of the item well signed. *)
Lemma valid_action_well_signed (f : Frame) (a : action) :
  valid_action a (self f) = true ->
  forallb well_signed (transactions (self f)) = true ->
  forallb well_signed (transactions (self (handled f a))) = true.
Proof.
  intros Hv Hs.
  handled_cases f a; cbn [valid_action] in Hv; try exact Hs;
    rewrite forallb_app, Hs; cbn [forallb andb]; rewrite andb_true_r;
    unfold well_signed, has_type;
    match goal with
    | Ht : Transaction.transaction_type _ = _ |- _ => rewrite Ht
    end; cbn [String.eqb Ascii.eqb Bool.eqb];
    try reflexivity; lia.
Qed.

Lemma valid_session_well_signed (acts : list action) (f : Frame) :
  valid_session acts f = true ->
  forallb well_signed (transactions (self f)) = true ->
  forallb well_signed (transactions (self (session acts f))) = true.
Proof.
  revert f; induction acts as [|a rest IH]; intros f Hv Hs; [exact Hs|].
  cbn [valid_session] in Hv. apply andb_true_iff in Hv as [Ha Hrest].
  apply IH; [exact Hrest|]. apply valid_action_well_signed; assumption.
Qed.

(** So the log of a new item is well signed after any valid session. *)
Lemma new_item_session_well_signed (acts : list action) (w : World)
    (n u : string) (q : Z) (c l : string) (s : ShelfTracking) :
  valid_session acts (mkFrame w (new_StoreItem n u q c l s)) = true ->
  forallb well_signed
    (transactions
       (self (session acts (mkFrame w (new_StoreItem n u q c l s)))))
  = true.
Proof.
  intro Hv. apply valid_session_well_signed; [exact Hv | reflexivity].
Qed.

(** A purchase of a negative quantity passes the guard of [purchase] and
    logs a purchase with a positive change: such a log is not well
    signed, and its purchase counts negatively. *)
Example negative_purchase_not_well_signed :
  let it := self (session [Sell (-3)] sample_frame) in
  quantity it = 23
  /\ ledger_well_signed [it] = false
  /\ total_units_sold [it] = -3
  /\ net_units_sold [it] = 3.
Proof. vm_compute. repeat split. Qed.

Lemma total_units_sold_net_witness :
  ledger_well_signed sample_store = true
  /\ total_units_sold sample_store = net_units_sold sample_store
  /\ total_units_sold sample_store = 8.
Proof.
  assert (H : ledger_well_signed sample_store = true)
    by (vm_compute; reflexivity).
  split; [exact H|].
  split; [exact (proj1 (total_units_sold_net sample_store H))|].
  vm_compute. reflexivity.
Defined.

(** ** best_location *)

Lemma mem_In (x : string) (l : list string) : mem x l = true <-> In x l.
Proof.
  unfold mem. rewrite existsb_exists. split.
  - intros (y & Hy & E). apply String.eqb_eq in E. subst y. exact Hy.
  - intro H. exists x. split; [exact H | apply String.eqb_refl].
Qed.

Section MaxScan.
Context {A : Type} (key : A -> Z).

Lemma max_scan_In (rest : list A) (b : A) :
  In (max_scan key b (key b) rest) (b :: rest).
Proof.
  revert b; induction rest as [|x rest IH]; intro b; cbn [max_scan].
  - left; reflexivity.
  - destruct (key x >? key b).
    + right. apply IH.
    + destruct (IH b) as [E|H]; [left; exact E | right; right; exact H].
Qed.

Lemma max_scan_ge_start (rest : list A) (b : A) :
  key b <= key (max_scan key b (key b) rest).
Proof.
  revert b; induction rest as [|x rest IH]; intro b; cbn [max_scan].
  - lia.
  - destruct (Z.gtb_spec (key x) (key b)).
    + specialize (IH x). lia.
    + apply IH.
Qed.

Lemma max_scan_upper (rest : list A) (b x : A) :
  In x (b :: rest) -> key x <= key (max_scan key b (key b) rest).
Proof.
  revert b; induction rest as [|y rest IH]; intros b Hx.
  - destruct Hx as [<-|[]]. cbn. lia.
  - cbn [max_scan]. destruct (Z.gtb_spec (key y) (key b)).
    + destruct Hx as [<-|Hx]; [|apply IH; exact Hx].
      pose proof (max_scan_ge_start rest y). lia.
    + destruct Hx as [<-|[<-|Hx]].
      * apply max_scan_ge_start.
      * pose proof (max_scan_ge_start rest b). lia.
      * apply IH. right; exact Hx.
Qed.

(** Whatever comes before the result in the iteration has a strictly
    smaller key: among equal maxima the first one met wins. *)
Lemma max_scan_first (rest : list A) (b : A) :
  exists before after,
    b :: rest = before ++ max_scan key b (key b) rest :: after
    /\ forall x, In x before ->
                 key x < key (max_scan key b (key b) rest).
Proof.
  revert b; induction rest as [|y rest IH]; intro b.
  - exists [], []. split; [reflexivity | intros x []].
  - cbn [max_scan]. destruct (Z.gtb_spec (key y) (key b)).
    + destruct (IH y) as (before & after & E & Hlt).
      exists (b :: before), after. split; [cbn; rewrite E; reflexivity|].
      intros x [<-|Hx]; [|apply Hlt; exact Hx].
      pose proof (max_scan_ge_start rest y). lia.
    + destruct (IH b) as (before & after & E & Hlt).
      destruct before as [|b' before].
      * cbn in E. injection E as Eb Er.
        exists [], (y :: after). split; [|intros x []].
        cbn. rewrite <- Eb, Er. reflexivity.
      * cbn in E. injection E as Eb Er. subst b'.
        exists (b :: y :: before), after.
        split; [cbn; do 2 f_equal; exact Er|].
        intros x [<-|[<-|Hx]].
        -- apply Hlt. left; reflexivity.
        -- specialize (Hlt b (or_introl eq_refl)). lia.
        -- apply Hlt. right; exact Hx.
Qed.
End MaxScan.

Lemma location_purchases_gross (items : list StoreItem) (loc : string) :
  ledger_well_signed items = true ->
  location_purchases items loc = gross_purchases_at items loc.
Proof.
  unfold location_purchases, gross_purchases_at, ledger_well_signed.
  rewrite sum_flat_map.
  induction items as [|it items IH]; [reflexivity|].
  cbn [forallb filter]. intro H. apply andb_true_iff in H as [Hit Hr].
  destruct (String.eqb (location it) loc); [|exact (IH Hr)].
  cbn [map fold_right]. rewrite (IH Hr), (well_signed_purchases _ Hit).
  reflexivity.
Qed.

(** C9: for a non-empty collection, whatever order the set of locations
    is iterated in, [best_location] yields a location of some item whose
    purchase volume no location exceeds, and among the locations of equal
    volume the one the iteration meets first; on logs that follow the sign
    convention that volume is the gross purchases at the location. *)
Theorem best_location_max (set_iter : list string -> list string)
    (items : list StoreItem) :
  items <> [] ->
  enumerates (set_iter (map location items)) (map location items) = true ->
  exists loc,
    best_location set_iter items = Ok loc
    /\ In loc (map location items)
    /\ (forall l, In l (map location items) ->
                  location_purchases items l <= location_purchases items loc)
    /\ (exists before after,
          set_iter (map location items) = before ++ loc :: after
          /\ forall l, In l before ->
               location_purchases items l < location_purchases items loc)
    /\ (ledger_well_signed items = true ->
        forall l, location_purchases items l = gross_purchases_at items l).
Proof.
  intros Hne He. unfold best_location.
  unfold enumerates in He.
  apply andb_true_iff in He as [He Hall]. apply andb_true_iff in He as [_ Hsub].
  rewrite forallb_forall in Hall, Hsub.
  destruct (set_iter (map location items)) as [|b rest] eqn:Eo.
  - destruct items as [|it items]; [contradiction|].
    specialize (Hall (location it) (or_introl eq_refl)). discriminate.
  - cbn [py_max]. eexists. split; [reflexivity|].
    split; [|split; [|split]].
    + apply mem_In, Hsub, max_scan_In.
    + intros l Hl. apply max_scan_upper. apply mem_In, Hall, Hl.
    + apply max_scan_first.
    + intros Hs l. apply location_purchases_gross, Hs.
Qed.

Lemma best_location_max_witness :
  sample_store <> []
  /\ enumerates (sample_set_iter (map location sample_store))
       (map location sample_store) = true
  /\ exists loc,
       best_location sample_set_iter sample_store = Ok loc
       /\ In loc (map location sample_store).
Proof.
  assert (H0 : sample_store <> []) by discriminate.
  assert (H1 : enumerates (sample_set_iter (map location sample_store))
                 (map location sample_store) = true)
    by (vm_compute; reflexivity).
  split; [exact H0|]. split; [exact H1|].
  destruct (best_location_max sample_set_iter sample_store H0 H1)
    as (loc & E & Hin & _).
  exists loc. split; assumption.
Defined.

(** Two locations with three units sold each: the answer follows the
    iteration order of the set. *)
Example best_location_tie :
  let sold3 n l :=
    self (session [Sell 3]
            (mkFrame sample_world
               (new_StoreItem n "0" 20 "Keychain" l
                  (mkShelfTracking (timedelta_of_days 990)
                                   (timedelta_of_days 995))))) in
  let items := [sold3 "a" "Main Shelf"; sold3 "b" "End Cap A"] in
  best_location (nodup string_dec) items = Ok "Main Shelf"
  /\ best_location sample_set_iter items = Ok "End Cap A".
Proof. vm_compute. split; reflexivity. Qed.

(** On an empty collection [max] raises a [ValueError]. *)
Example best_location_empty (set_iter : list string -> list string) :
  set_iter [] = [] ->
  exists msg, best_location set_iter [] = Raise (ValueError msg).
Proof.
  intro E. unfold best_location. cbn. rewrite E. eexists. reflexivity.
Qed.

(** ** generate_store *)

Lemma random_randint_run (a b : Z) (w : World) :
  a <= b ->
  random_randint a b w
  = (Ok (a + rand_source w (rand_calls w) mod (b - a + 1)),
     mkWorld (wall_clock w) (now_calls w) (uuid_source w) (uuid_calls w)
             (rand_source w) (Datatypes.S (rand_calls w))
             (datetime_str w) (console w)).
Proof.
  intro H. unfold random_randint.
  destruct (Z.ltb_spec b a); [lia | reflexivity].
Qed.

Lemma randint_bounds (a b r : Z) : a <= b -> a <= a + r mod (b - a + 1) <= b.
Proof.
  intro H. pose proof (Z.mod_pos_bound r (b - a + 1)). lia.
Qed.

Lemma drawn_received_bounds (w : World) : 8 <= drawn_received w <= 12.
Proof. unfold drawn_received. apply randint_bounds. lia. Qed.

Lemma drawn_displayed_bounds (w : World) :
  1 <= drawn_displayed w <= drawn_received w.
Proof.
  unfold drawn_displayed. apply randint_bounds.
  pose proof (drawn_received_bounds w). lia.
Qed.

Lemma random_shelf_tracking_run (w : World) :
  random_shelf_tracking w
  = (Ok (mkShelfTracking
           (wall_clock w (now_calls w)
            - timedelta_of_days (drawn_received w))
           (wall_clock w (Datatypes.S (now_calls w))
            - timedelta_of_days (drawn_displayed w))),
     after_shelf_tracking w).
Proof.
  unfold random_shelf_tracking. unfold bind at 1.
  rewrite random_randint_run by lia. fold (drawn_received w).
  unfold bind at 1.
  rewrite random_randint_run by (pose proof (drawn_received_bounds w); lia).
  reflexivity.
Qed.

Lemma simulate_sales_run (l : list (StoreItem * (Z * Z))) (w : World) :
  Forall (fun p => fst (snd p) <= snd (snd p) <= quantity (fst p)) l ->
  exists items w',
    simulate_sales l w = (Ok items, w')
    /\ Forall2 (fun p it => seeded (fst p) (snd p) it) l items.
Proof.
  intro Hl. revert w. induction Hl as [|[item [lo hi]] l Hp _ IH]; intro w.
  - exists [], w. split; [reflexivity | constructor].
  - cbn [fst snd] in Hp. cbn [simulate_sales]. unfold bind at 1.
    rewrite random_randint_run by lia.
    pose proof (randint_bounds lo hi (rand_source w (rand_calls w))
                  ltac:(lia)) as Hq.
    set (q := lo + rand_source w (rand_calls w) mod (hi - lo + 1)) in *.
    unfold bind at 1. unfold call_method.
    match goal with |- context [purchase q ?g] =>
      destruct (purchase_run g q) as (txn & w1 & E & Hc & Ht & _);
        [cbn; lia | rewrite E] end.
    cbn [self env]. destruct (IH w1) as (items & w2 & E2 & Hall).
    unfold bind. rewrite E2. cbn [ret snd].
    eexists; eexists. split; [reflexivity|].
    constructor; [|exact Hall].
    eexists q, txn, _. cbn [fst snd]. split; [lia|].
    split; [reflexivity|]. split; assumption.
Qed.

Lemma back_dated_order (w : World) (k : nat) (s : ShelfTracking) :
  clock_monotone w -> back_dated w k s ->
  date_received s <= date_displayed s.
Proof.
  intros Hm (dr & dd & Hr & Hd & -> & ->).
  specialize (Hm (2 * k + now_calls w)%nat).
  unfold timedelta_of_days. pose proof usec_per_day_pos. nia.
Qed.

Lemma seeded_seeded_with (n u c l : string) (s : ShelfTracking)
    (rng : Z * Z) (it : StoreItem) :
  0 <= fst rng ->
  seeded (new_StoreItem n u 20 c l s) rng it ->
  seeded_with rng it
  /\ name it = n /\ location it = l /\ shelf_tracking it = s.
Proof.
  intros H0 (q & txn & d & Hq & -> & Hc & Ht). cbn.
  split; [|repeat split].
  exists q, txn. cbn. rewrite repeat_length. repeat split; try assumption; lia.
Qed.

(** What the factory returns, whatever the clock and the draws. *)
Lemma generate_store_shape (w : World) :
  exists items w',
    generate_store w = (Ok items, w')
    /\ List.length items = 5%nat
    /\ map name items
       = ["Baby Yoda Keychain"; "iPhone 15 Case"; "Disney Princess Keychain";
          "Mandalorian Keychain"; "LED Lanyard"]
    /\ NoDup (map name items)
    /\ map location items
       = ["Front Counter"; "End Cap A"; "Main Shelf"; "Main Shelf";
          "Rotating Rack"]
    /\ Forall2 seeded_with [(10, 15); (6, 10); (5, 9); (4, 8); (1, 5)] items
    /\ forall k it,
         nth_error items k = Some it -> back_dated w k (shelf_tracking it).
Proof.
  unfold generate_store.
  unfold bind at 1. rewrite random_shelf_tracking_run.
  set (w1 := after_shelf_tracking w).
  unfold bind at 1. rewrite random_shelf_tracking_run.
  set (w2 := after_shelf_tracking w1).
  unfold bind at 1. rewrite random_shelf_tracking_run.
  set (w3 := after_shelf_tracking w2).
  unfold bind at 1. rewrite random_shelf_tracking_run.
  set (w4 := after_shelf_tracking w3).
  unfold bind at 1. rewrite random_shelf_tracking_run.
  set (w5 := after_shelf_tracking w4).
  cbn [combine].
  match goal with |- context [simulate_sales ?l w5] =>
    destruct (simulate_sales_run l w5) as (items & w' & E & Hall) end.
  { repeat constructor; cbn; lia. }
  exists items, w'. split; [exact E|]. clear E.
  pose proof (Forall2_length Hall) as Hlen.
  destruct items as [|i1 [|i2 [|i3 [|i4 [|i5 [|i6 items]]]]]];
    try discriminate Hlen. clear Hlen.
  apply Forall2_cons_iff in Hall as [H1 Hall].
  apply Forall2_cons_iff in Hall as [H2 Hall].
  apply Forall2_cons_iff in Hall as [H3 Hall].
  apply Forall2_cons_iff in Hall as [H4 Hall].
  apply Forall2_cons_iff in Hall as [H5 _].
  cbn [fst snd] in *.
  apply seeded_seeded_with in H1 as (S1 & N1 & L1 & T1); [|cbn; lia].
  apply seeded_seeded_with in H2 as (S2 & N2 & L2 & T2); [|cbn; lia].
  apply seeded_seeded_with in H3 as (S3 & N3 & L3 & T3); [|cbn; lia].
  apply seeded_seeded_with in H4 as (S4 & N4 & L4 & T4); [|cbn; lia].
  apply seeded_seeded_with in H5 as (S5 & N5 & L5 & T5); [|cbn; lia].
  split; [reflexivity|].
  assert (En : map name [i1; i2; i3; i4; i5]
               = ["Baby Yoda Keychain"; "iPhone 15 Case";
                  "Disney Princess Keychain"; "Mandalorian Keychain";
                  "LED Lanyard"]).
  { cbn [map]. rewrite N1, N2, N3, N4, N5. reflexivity. }
  split; [exact En|].
  split.
  { rewrite En. repeat (constructor; [cbn; intuition discriminate|]).
    constructor. }
  split; [cbn [map]; rewrite L1, L2, L3, L4, L5; reflexivity|].
  split; [repeat constructor; assumption|].
  intros k it Hk.
  destruct k as [|[|[|[|[|k]]]]]; cbn [nth_error] in Hk;
      [injection Hk as <-; rewrite T1
      |injection Hk as <-; rewrite T2
      |injection Hk as <-; rewrite T3
      |injection Hk as <-; rewrite T4
      |injection Hk as <-; rewrite T5
      |destruct k; discriminate Hk];
      eexists (drawn_received _), (drawn_displayed _);
      (split; [apply drawn_received_bounds|]);
      (split; [apply drawn_displayed_bounds|]);
      split; reflexivity.
Qed.

(** X20: whatever the clock and the draws, the factory succeeds and
    yields exactly five items with distinct names, at the five fixed
    locations; each was built with twenty units and then given one
    purchase of a quantity within its range; each was received 8 to 12
    whole days before the clock reading made for it and displayed 1 to
    that many days before the next reading. *)
Theorem generate_store_items (w : World) :
  exists items w',
    generate_store w = (Ok items, w')
    /\ List.length items = 5%nat
    /\ map name items
       = ["Baby Yoda Keychain"; "iPhone 15 Case"; "Disney Princess Keychain";
          "Mandalorian Keychain"; "LED Lanyard"]
    /\ NoDup (map name items)
    /\ map location items
       = ["Front Counter"; "End Cap A"; "Main Shelf"; "Main Shelf";
          "Rotating Rack"]
    /\ Forall2 seeded_with [(10, 15); (6, 10); (5, 9); (4, 8); (1, 5)] items
    /\ forall k it,
         nth_error items k = Some it -> back_dated w k (shelf_tracking it).
Proof. exact (generate_store_shape w). Qed.

(** X21: when successive clock readings do not go back, no item of the
    store the factory returns is displayed before it is received. *)
Theorem generate_store_ordered (w : World) :
  clock_monotone w ->
  exists items w',
    generate_store w = (Ok items, w')
    /\ Forall (fun it => date_received (shelf_tracking it)
                         <= date_displayed (shelf_tracking it)) items.
Proof.
  intro Hm.
  destruct (generate_store_shape w) as (items & w' & E & _ & _ & _ & _ & _ & Hb).
  exists items, w'. split; [exact E|].
  apply Forall_forall. intros it Hin.
  apply In_nth_error in Hin as (k & Hk).
  exact (back_dated_order w k _ Hm (Hb k it Hk)).
Qed.

Lemma sample_clock_monotone : clock_monotone sample_world.
Proof.
  intro i. unfold sample_world. cbn [wall_clock]. lia.
Qed.

Lemma generate_store_ordered_witness :
  clock_monotone sample_world
  /\ exists items w',
       generate_store sample_world = (Ok items, w')
       /\ Forall (fun it => date_received (shelf_tracking it)
                            <= date_displayed (shelf_tracking it)) items.
Proof.
  split; [exact sample_clock_monotone|].
  exact (generate_store_ordered sample_world sample_clock_monotone).
Defined.

(** The factory run on the sample world: what is left of each item, the
    days it was received and displayed on, and its durations. *)
Example generate_store_sample :
  match generate_store sample_world with
  | (Ok items, _) =>
      map (fun it => (quantity it,
                      days (date_received (shelf_tracking it)),
                      days (date_displayed (shelf_tracking it)),
                      _sold_durations it)) items
  | (Raise _, _) => []
  end
  = [(9, 989, 989, repeat 11 11); (14, 990, 995, repeat 5 6);
     (13, 991, 997, repeat 3 7); (12, 992, 995, repeat 5 8);
     (18, 988, 993, repeat 7 2)].
Proof. vm_compute. reflexivity. Qed.

(** C8: the factory does not keep the display date from preceding the
    receipt date.  It draws the days of display no greater than the days
    of receipt but takes the two dates from two readings of the clock:
    on a clock that steps back by a second between them, with eleven
    days drawn for both, the first item is received on day 989 and
    displayed one second before that. *)
Theorem generate_store_display_before_receipt :
  match generate_store backward_world with
  | (Ok (it :: _), _) =>
      name it = "Baby Yoda Keychain"
      /\ date_received (shelf_tracking it) = timedelta_of_days 989
      /\ date_displayed (shelf_tracking it)
         = timedelta_of_days 989 - 1000000
      /\ date_displayed (shelf_tracking it)
         < date_received (shelf_tracking it)
  | _ => False
  end.
Proof. vm_compute. repeat split. Qed.

(* ------------------------------------------------------------------ *)
(** * Further properties *)

(** ** replenish *)

(** X1: [replenish] has no guard: for every integer [qty] it succeeds,
    adds [qty] to [quantity], appends and returns one transaction of
    change [qty] and type replenish, and leaves [_sold_durations], the
    shelf tracking and so [average_days_to_sell] as they were. *)
Theorem replenish_restocks (f : Frame) (qty : Z) :
  exists txn f',
    replenish qty f = (Ok txn, f')
    /\ quantity (self f') = quantity (self f) + qty
    /\ transactions (self f') = transactions (self f) ++ [txn]
    /\ Transaction.quantity_change txn = qty
    /\ Transaction.transaction_type txn = "replenish"
    /\ _sold_durations (self f') = _sold_durations (self f)
    /\ shelf_tracking (self f') = shelf_tracking (self f)
    /\ fst (average_days_to_sell f') = fst (average_days_to_sell f).
Proof.
  destruct (replenish_run f qty) as (txn & w' & E & Hc & Ht & _).
  exists txn. eexists. split; [exact E|].
  rewrite !average_days_to_sell_run. cbn. repeat split; assumption.
Qed.

(** ** The log and the stock *)

(** What one action does to the log and to the stock: at most one
    transaction is appended, stamped with the item's name and location,
    and the quantity moves by exactly the change it records. *)
Lemma handled_log (f : Frame) (a : action) :
  exists added,
    transactions (self (handled f a)) = transactions (self f) ++ added
    /\ (List.length added <= 1)%nat
    /\ Forall (stamped (self f)) added
    /\ quantity (self (handled f a))
       = quantity (self f) + log_total added
    /\ name (self (handled f a)) = name (self f)
    /\ location (self (handled f a)) = location (self f).
Proof.
  unfold handled. destruct a as [qty|qty|qty|]; cbn [perform].
  - destruct (Z_lt_le_dec (quantity (self f)) qty) as [Hlt|Hle].
    + unfold bind. rewrite (purchase_raises f qty Hlt). cbn [snd].
      exists []. rewrite app_nil_r. cbn.
      repeat split; try constructor; lia.
    + destruct (purchase_run f qty Hle)
        as (txn & w' & E & Hc & _ & Hn & Hl).
      unfold bind. rewrite E. cbn. exists [txn]. unfold log_total. cbn.
      repeat split; try lia.
      constructor; [split; assumption | constructor].
  - destruct (replenish_run f qty) as (txn & w' & E & Hc & _ & Hn & Hl).
    unfold bind. rewrite E. cbn. exists [txn]. unfold log_total. cbn.
    repeat split; try lia.
    constructor; [split; assumption | constructor].
  - destruct (return_item_run f qty) as (txn & w' & E & Hc & _ & Hn & Hl).
    unfold bind. rewrite E. cbn. exists [txn]. unfold log_total. cbn.
    repeat split; try lia.
    constructor; [split; assumption | constructor].
  - exists []. rewrite app_nil_r. cbn [List.length log_total map fold_right].
    destruct (Z_lt_le_dec
                (date_displayed (shelf_tracking (self f))
                 - timedelta_of_days 1) datetime_min) as [Hlt|Hge].
    + rewrite (advance_day_raises f Hlt). cbn [snd].
      repeat split; try constructor; lia.
    + destruct (advance_day_run f Hge) as (w' & E). rewrite E. cbn.
      repeat split; try constructor; lia.
Qed.

Lemma log_total_app (l1 l2 : list Transaction.t) :
  log_total (l1 ++ l2) = log_total l1 + log_total l2.
Proof.
  unfold log_total. induction l1 as [|t l1 IH]; cbn; [reflexivity|].
  cbn in IH. rewrite IH. lia.
Qed.

Lemma session_log (acts : list action) (f : Frame) :
  exists added,
    transactions (self (session acts f)) = transactions (self f) ++ added
    /\ (List.length added <= List.length acts)%nat
    /\ Forall (stamped (self f)) added
    /\ quantity (self (session acts f))
       = quantity (self f) + log_total added
    /\ name (self (session acts f)) = name (self f)
    /\ location (self (session acts f)) = location (self f).
Proof.
  revert f; induction acts as [|a rest IH]; intro f.
  - exists []. cbn. rewrite app_nil_r.
    repeat split; try constructor; lia.
  - destruct (handled_log f a) as (l1 & E1 & Hlen1 & Hs1 & Hq1 & Hn1 & Hl1).
    destruct (IH (handled f a)) as (l2 & E2 & Hlen2 & Hs2 & Hq2 & Hn2 & Hl2).
    exists (l1 ++ l2).
    change (session (a :: rest) f) with (session rest (handled f a)).
    rewrite E2, E1, <- app_assoc, Hq2, Hq1, log_total_app, Hn2, Hl2.
    rewrite length_app. cbn [List.length].
    repeat split; try lia; try assumption.
    apply Forall_app. split; [exact Hs1|].
    revert Hs2. apply Forall_impl. intros t [Ha Hb].
    split; congruence.
Qed.

(** X2: the log is append-only and explains the stock.  Whatever the
    actions of a session and their quantities, failed purchases included,
    the log afterwards is the log before followed by at most one new
    transaction per action, and the quantity has moved by exactly the sum
    of the changes of the new transactions. *)
Theorem session_ledger (acts : list action) (f : Frame) :
  exists added,
    transactions (self (session acts f)) = transactions (self f) ++ added
    /\ (List.length added <= List.length acts)%nat
    /\ quantity (self (session acts f))
       = quantity (self f) + log_total added.
Proof.
  destruct (session_log acts f) as (added & E & Hlen & _ & Hq & _).
  exists added. repeat split; assumption.
Qed.

(** X3: an item never changes its name or location, and every
    transaction a session appends carries that name and location. *)
Theorem session_stamps (acts : list action) (f : Frame) :
  name (self (session acts f)) = name (self f)
  /\ location (self (session acts f)) = location (self f)
  /\ exists added,
       transactions (self (session acts f)) = transactions (self f) ++ added
       /\ Forall (stamped (self f)) added.
Proof.
  destruct (session_log acts f) as (added & E & _ & Hs & _ & Hn & Hl).
  split; [exact Hn|]. split; [exact Hl|]. exists added. split; assumption.
Qed.

(** ** Day passing *)

Lemma days_shift (td : timedelta) (n : Z) :
  days (td + timedelta_of_days n) = days td + n.
Proof.
  unfold days, timedelta_of_days.
  apply Z.div_add. pose proof usec_per_day_pos. lia.
Qed.

(** The day-passing step reads neither the clock nor the generators. *)
Lemma advance_day_frame (f : Frame) :
  datetime_min + timedelta_of_days 1
  <= date_displayed (shelf_tracking (self f)) ->
  fst (perform DayPassing f) = Ok tt
  /\ wall_clock (env (handled f DayPassing)) = wall_clock (env f)
  /\ now_calls (env (handled f DayPassing)) = now_calls (env f)
  /\ self (handled f DayPassing)
     = set_shelf_tracking (self f)
         (mkShelfTracking
            (date_received (shelf_tracking (self f)))
            (date_displayed (shelf_tracking (self f))
             - timedelta_of_days 1)).
Proof.
  destruct f as [w it]. cbn [self env]. intro Hd.
  unfold handled. cbn [perform].
  assert (H : exists r,
             advance_day (mkFrame w it) = r
             /\ fst r = Ok tt
             /\ wall_clock (env (snd r)) = wall_clock w
             /\ now_calls (env (snd r)) = now_calls w
             /\ self (snd r)
                = set_shelf_tracking it
                    (mkShelfTracking
                       (date_received (shelf_tracking it))
                       (date_displayed (shelf_tracking it)
                        - timedelta_of_days 1))).
  { eexists. split.
    - unfold advance_day. unfold bind at 1. cbn [get_self self].
      destruct (Z.ltb_spec
                  (date_displayed (shelf_tracking it) - timedelta_of_days 1)
                  datetime_min) as [Hlt|_]; [lia|].
      reflexivity.
    - repeat split. }
  destruct H as (r & <- & H). exact H.
Qed.

Lemma day_passing_frame (n : nat) (f : Frame) :
  datetime_min + timedelta_of_days (Z.of_nat n)
  <= date_displayed (shelf_tracking (self f)) ->
  all_return (repeat DayPassing n) f
  /\ wall_clock (env (session (repeat DayPassing n) f)) = wall_clock (env f)
  /\ now_calls (env (session (repeat DayPassing n) f)) = now_calls (env f)
  /\ self (session (repeat DayPassing n) f)
     = set_shelf_tracking (self f)
         (mkShelfTracking
            (date_received (shelf_tracking (self f)))
            (date_displayed (shelf_tracking (self f))
             - timedelta_of_days (Z.of_nat n))).
Proof.
  revert f; induction n as [|n IH]; intros f Hd.
  - cbn [repeat session fold_left all_return]. repeat split.
    change (timedelta_of_days (Z.of_nat 0)) with 0. rewrite Z.sub_0_r.
    destruct f as [w [nm u q c l [r d] t ds]]. reflexivity.
  - change (session (repeat DayPassing (Datatypes.S n)) f)
      with (session (repeat DayPassing n) (handled f DayPassing)).
    cbn [repeat all_return].
    assert (Hstep : timedelta_of_days (Z.of_nat (Datatypes.S n))
                    = timedelta_of_days (Z.of_nat n) + timedelta_of_days 1)
      by (unfold timedelta_of_days; lia).
    assert (Hn0 : 0 <= timedelta_of_days (Z.of_nat n)).
    { unfold timedelta_of_days. pose proof usec_per_day_pos. nia. }
    destruct (advance_day_frame f) as (Hok1 & Hc1 & Hn1 & Hs1); [lia|].
    destruct (IH (handled f DayPassing)) as (Hok & Hc & Hn & Hs).
    { rewrite Hs1. cbn [shelf_tracking set_shelf_tracking date_displayed].
      lia. }
    rewrite Hc, Hn, Hs, Hc1, Hn1, Hs1.
    split; [split; assumption|]. repeat split.
    unfold set_shelf_tracking.
    cbn [name upc quantity category location shelf_tracking transactions
         _sold_durations date_received date_displayed].
    f_equal. f_equal. lia.
Qed.

(** X4: as long as they do not take it below [datetime.min], [n] day
    passings all return, move [date_displayed] back by exactly [n] days
    and change nothing else of the item. *)
Theorem day_passing_n (n : nat) (f : Frame) :
  datetime_min + timedelta_of_days (Z.of_nat n)
  <= date_displayed (shelf_tracking (self f)) ->
  let it := self f in
  let it' := self (session (repeat DayPassing n) f) in
  all_return (repeat DayPassing n) f
  /\ date_displayed (shelf_tracking it')
     = date_displayed (shelf_tracking it) - timedelta_of_days (Z.of_nat n)
  /\ date_received (shelf_tracking it') = date_received (shelf_tracking it)
  /\ quantity it' = quantity it
  /\ transactions it' = transactions it
  /\ _sold_durations it' = _sold_durations it
  /\ name it' = name it /\ location it' = location it.
Proof.
  intro Hd. cbv zeta.
  destruct (day_passing_frame n f Hd) as (Hok & _ & _ & ->).
  split; [exact Hok|]. repeat split.
Qed.

Lemma day_passing_n_witness :
  datetime_min + timedelta_of_days (Z.of_nat 3)
  <= date_displayed (shelf_tracking (self sample_frame))
  /\ date_displayed
       (shelf_tracking (self (session (repeat DayPassing 3) sample_frame)))
     = timedelta_of_days 992.
Proof.
  assert (H : datetime_min + timedelta_of_days (Z.of_nat 3)
              <= date_displayed (shelf_tracking (self sample_frame)))
    by (vm_compute; discriminate).
  split; [exact H|].
  destruct (day_passing_n 3 sample_frame H) as (_ & E & _).
  rewrite E. reflexivity.
Defined.

(** X22: a day passing that would take the display date below
    [datetime.min] raises [OverflowError] and leaves the item and the
    world exactly as they were, however often it is repeated. *)
Theorem day_passing_overflow (n : nat) (f : Frame) :
  date_displayed (shelf_tracking (self f))
  < datetime_min + timedelta_of_days 1 ->
  perform DayPassing f
  = (Raise (OverflowError "date value out of range"), f)
  /\ session (repeat DayPassing n) f = f.
Proof.
  intro Hd.
  assert (E : perform DayPassing f
              = (Raise (OverflowError "date value out of range"), f)).
  { cbn [perform]. apply advance_day_raises. lia. }
  split; [exact E|].
  induction n as [|n IH]; [reflexivity|].
  change (session (repeat DayPassing (Datatypes.S n)) f)
    with (session (repeat DayPassing n) (handled f DayPassing)).
  unfold handled. rewrite E. exact IH.
Qed.

Lemma day_passing_overflow_witness :
  date_displayed
    (shelf_tracking
       (self (mkFrame sample_world
                (set_shelf_tracking sample_item
                   (mkShelfTracking 0 (timedelta_of_days 1 - 1))))))
  < datetime_min + timedelta_of_days 1
  /\ session (repeat DayPassing 5)
       (mkFrame sample_world
          (set_shelf_tracking sample_item
             (mkShelfTracking 0 (timedelta_of_days 1 - 1))))
     = mkFrame sample_world
         (set_shelf_tracking sample_item
            (mkShelfTracking 0 (timedelta_of_days 1 - 1))).
Proof.
  assert (H : date_displayed
                (shelf_tracking
                   (self (mkFrame sample_world
                            (set_shelf_tracking sample_item
                               (mkShelfTracking 0
                                  (timedelta_of_days 1 - 1))))))
              < datetime_min + timedelta_of_days 1)
    by (vm_compute; reflexivity).
  split; [exact H|].
  exact (proj2 (day_passing_overflow 5 _ H)).
Defined.

(** X5: a sale made after [n] day passings that do not take the display
    date below [datetime.min], at the same clock reading, records [n]
    more days for each unit than it would have recorded before them,
    when the display date is not in the future. *)
Theorem day_passing_then_sale (n : nat) (f : Frame) (qty : Z) :
  1 <= qty <= quantity (self f) ->
  date_displayed (shelf_tracking (self f)) <= sell_date_in f ->
  datetime_min + timedelta_of_days (Z.of_nat n)
  <= date_displayed (shelf_tracking (self f)) ->
  exists txn f',
    purchase qty (session (repeat DayPassing n) f) = (Ok txn, f')
    /\ _sold_durations (self f')
       = _sold_durations (self f)
         ++ repeat (days_on_shelf_in f + Z.of_nat n) (Z.to_nat qty).
Proof.
  intros Hq Hd Hmin.
  destruct (day_passing_frame n f Hmin) as (_ & Hc & Hn & Hs).
  set (g := session (repeat DayPassing n) f) in *.
  destruct (purchase_run g qty) as (txn & w' & E & _).
  { rewrite Hs. cbn. lia. }
  exists txn. eexists. split; [exact E|]. cbn.
  rewrite Hs. cbn. f_equal. f_equal.
  unfold days_on_shelf_in, sell_date_in in *. rewrite Hc, Hn, Hs. cbn.
  set (span := wall_clock (env f) (now_calls (env f))
               - date_displayed (shelf_tracking (self f))) in *.
  replace (wall_clock (env f) (now_calls (env f))
           - (date_displayed (shelf_tracking (self f))
              - timedelta_of_days (Z.of_nat n)))
    with (span + timedelta_of_days (Z.of_nat n)) by (unfold span; lia).
  rewrite days_shift.
  pose proof (days_nonneg span ltac:(unfold span; lia)). lia.
Qed.

Lemma day_passing_then_sale_witness :
  1 <= 2 <= quantity (self sample_frame)
  /\ date_displayed (shelf_tracking (self sample_frame))
     <= sell_date_in sample_frame
  /\ datetime_min + timedelta_of_days (Z.of_nat 3)
     <= date_displayed (shelf_tracking (self sample_frame))
  /\ exists txn f',
       purchase 2 (session (repeat DayPassing 3) sample_frame) = (Ok txn, f')
       /\ _sold_durations (self f') = [8; 8].
Proof.
  assert (H1 : 1 <= 2 <= quantity (self sample_frame)) by (simpl; lia).
  assert (H2 : date_displayed (shelf_tracking (self sample_frame))
               <= sell_date_in sample_frame) by (vm_compute; discriminate).
  assert (H3 : datetime_min + timedelta_of_days (Z.of_nat 3)
               <= date_displayed (shelf_tracking (self sample_frame)))
    by (vm_compute; discriminate).
  split; [exact H1|]. split; [exact H2|]. split; [exact H3|].
  destruct (day_passing_then_sale 3 sample_frame 2 H1 H2 H3)
    as (txn & f' & E & Hd).
  exists txn, f'. split; [exact E|]. rewrite Hd. vm_compute. reflexivity.
Defined.

(** ** Quantities the methods do not check *)

(** X6: [purchase] checks only the upper bound.  On an item with stock,
    a quantity of zero or less passes: nothing is recorded in
    [_sold_durations], the stock does not go down, and the log gets a
    purchase whose change is not negative. *)
Theorem purchase_nonpositive (f : Frame) (qty : Z) :
  qty <= 0 -> 0 <= quantity (self f) ->
  exists txn f',
    purchase qty f = (Ok txn, f')
    /\ _sold_durations (self f') = _sold_durations (self f)
    /\ quantity (self f') = quantity (self f) - qty
    /\ quantity (self f) <= quantity (self f')
    /\ transactions (self f') = transactions (self f) ++ [txn]
    /\ Transaction.transaction_type txn = "purchase"
    /\ 0 <= Transaction.quantity_change txn.
Proof.
  intros Hq H0.
  destruct (purchase_run f qty) as (txn & w' & E & Hc & Ht & _); [lia|].
  exists txn. eexists. split; [exact E|]. cbn.
  replace (Z.to_nat qty) with 0%nat by lia. cbn. rewrite app_nil_r.
  repeat split; try assumption; lia.
Qed.

Lemma purchase_nonpositive_witness :
  -3 <= 0 /\ 0 <= quantity (self sample_frame)
  /\ exists txn f',
       purchase (-3) sample_frame = (Ok txn, f')
       /\ quantity (self f') = 23.
Proof.
  assert (H1 : -3 <= 0) by lia.
  assert (H2 : 0 <= quantity (self sample_frame)) by (simpl; lia).
  split; [exact H1|]. split; [exact H2|].
  destruct (purchase_nonpositive sample_frame (-3) H1 H2)
    as (txn & f' & E & _ & Hq & _).
  exists txn, f'. split; [exact E|]. rewrite Hq. reflexivity.
Defined.

(** X7: [return_item] checks nothing.  A quantity of zero or less pops
    no duration and is added to the stock as it is, so a return of less
    than minus the stock leaves a negative quantity. *)
Theorem return_item_nonpositive (f : Frame) (qty : Z) :
  qty <= 0 ->
  exists txn f',
    return_item qty f = (Ok txn, f')
    /\ _sold_durations (self f') = _sold_durations (self f)
    /\ quantity (self f') = quantity (self f) + qty
    /\ (quantity (self f) < - qty -> quantity (self f') < 0)
    /\ transactions (self f') = transactions (self f) ++ [txn]
    /\ Transaction.transaction_type txn = "return"
    /\ Transaction.quantity_change txn = qty.
Proof.
  intro Hq.
  destruct (return_item_run f qty) as (txn & w' & E & Hc & Ht & _).
  exists txn. eexists. split; [exact E|]. cbn.
  replace (popped f qty) with 0%nat by (unfold popped; lia).
  rewrite Nat.sub_0_r, firstn_all.
  repeat split; try assumption; lia.
Qed.

Lemma return_item_nonpositive_witness :
  -25 <= 0
  /\ exists txn f',
       return_item (-25) sample_frame = (Ok txn, f')
       /\ quantity (self f') = -5.
Proof.
  assert (H1 : -25 <= 0) by lia.
  split; [exact H1|].
  destruct (return_item_nonpositive sample_frame (-25) H1)
    as (txn & f' & E & _ & Hq & _).
  exists txn, f'. split; [exact E|]. rewrite Hq. reflexivity.
Defined.

(** ** How many durations are recorded *)

Lemma sum_filter_snoc (k : string) (g : Transaction.t -> Z)
    (l : list Transaction.t) (t : Transaction.t) :
  sum (map g (filter (has_type k) (l ++ [t])))
  = sum (map g (filter (has_type k) l))
    + (if has_type k t then g t else 0).
Proof.
  rewrite filter_app, map_app, sum_app. cbn [filter].
  destruct (has_type k t); cbn [map]; [rewrite sum_cons|];
    change (sum []) with 0; lia.
Qed.

Lemma valid_action_durations (f : Frame) (a : action) :
  valid_action a (self f) = true ->
  durations_bounded (self f) -> durations_bounded (self (handled f a)).
Proof.
  intros Hv Hb. unfold durations_bounded, item_sales, purchases_of in *.
  pose proof (popped_le f) as Hp. unfold popped in Hp.
  handled_cases f a; cbn [valid_action] in Hv; try exact Hb;
    rewrite !sum_filter_snoc; unfold has_type in *;
    match goal with
    | Ht : Transaction.transaction_type _ = _ |- _ => rewrite Ht
    end;
    match goal with
    | Hc : Transaction.quantity_change _ = _ |- _ => rewrite Hc
    end;
    cbn [String.eqb Ascii.eqb Bool.eqb].
  - rewrite length_app, repeat_length. lia.
  - lia.
  - rewrite length_firstn. unfold popped. specialize (Hp qty). lia.
Qed.

(** X8: through a session of valid actions the number of recorded
    durations stays between the net sales of the item (purchases minus
    returns) and its purchases. *)
Theorem valid_session_durations (acts : list action) (f : Frame) :
  valid_session acts f = true ->
  durations_bounded (self f) ->
  durations_bounded (self (session acts f)).
Proof.
  revert f; induction acts as [|a rest IH]; intros f Hv Hb; [exact Hb|].
  cbn [valid_session] in Hv. apply andb_true_iff in Hv as [Ha Hrest].
  change (session (a :: rest) f) with (session rest (handled f a)).
  apply IH; [exact Hrest|]. apply valid_action_durations; assumption.
Qed.

Lemma valid_session_durations_witness :
  valid_session [Sell 6; Return 2; Restock 4; Return 9; Sell 3]
    sample_frame = true
  /\ durations_bounded (self sample_frame)
  /\ durations_bounded
       (self (session [Sell 6; Return 2; Restock 4; Return 9; Sell 3]
                sample_frame)).
Proof.
  assert (H1 : valid_session [Sell 6; Return 2; Restock 4; Return 9; Sell 3]
                 sample_frame = true) by (vm_compute; reflexivity).
  assert (H2 : durations_bounded (self sample_frame))
    by (vm_compute; split; discriminate).
  split; [exact H1|]. split; [exact H2|].
  exact (valid_session_durations _ sample_frame H1 H2).
Defined.

(** After a return of more than was sold the count is above the net
    sales: six sold, nine returned, three sold leaves three durations
    for net sales of nothing. *)
Example durations_above_net_sales :
  let it := self (session [Sell 6; Return 9; Sell 3] sample_frame) in
  List.length (_sold_durations it) = 3%nat /\ item_sales it = 0.
Proof. vm_compute. split; reflexivity. Qed.

(** ** Stock and sales *)

Lemma handled_balance (f : Frame) (a : action) :
  stock_balance (self (handled f a)) = stock_balance (self f).
Proof.
  unfold stock_balance, item_sales, restocked.
  handled_cases f a; try reflexivity;
    rewrite !sum_filter_snoc; unfold has_type in *;
    match goal with
    | Ht : Transaction.transaction_type _ = _ |- _ => rewrite Ht
    end;
    match goal with
    | Hc : Transaction.quantity_change _ = _ |- _ => rewrite Hc
    end;
    cbn [String.eqb Ascii.eqb Bool.eqb]; lia.
Qed.

(** X19: stock is conserved.  Through any session, whatever the actions
    and their quantities, the units on hand plus the net units sold that
    the charts compute from the log, less the units the log shows as
    restocked, stay what they were. *)
Theorem session_conservation (acts : list action) (f : Frame) :
  quantity (self (session acts f)) + item_sales (self (session acts f))
  - restocked (self (session acts f))
  = quantity (self f) + item_sales (self f) - restocked (self f).
Proof.
  fold (stock_balance (self (session acts f))).
  fold (stock_balance (self f)).
  revert f; induction acts as [|a rest IH]; intro f; [reflexivity|].
  change (session (a :: rest) f) with (session rest (handled f a)).
  rewrite IH. apply handled_balance.
Qed.

(** ** The charts *)

Lemma total_units_sold_items (items : list StoreItem) :
  total_units_sold items = fold_right Z.add 0 (map item_sales items).
Proof.
  unfold total_units_sold. rewrite !sum_flat_map.
  induction items as [|it items IH]; [reflexivity|].
  cbn [map fold_right]. rewrite <- IH. unfold item_sales. lia.
Qed.

(** X9: the weights of the pie chart, one per label, add up to
    [total_units_sold]. *)
Theorem sales_total (items : list StoreItem) :
  sum (sales items) = total_units_sold items
  /\ List.length (sales items) = List.length (labels items).
Proof.
  split.
  - rewrite total_units_sold_items, sum_fold_right. reflexivity.
  - unfold sales, labels. rewrite !length_map. reflexivity.
Qed.

Lemma dict_get_set {V} (d : dict V) (k k' : string) (v : V) :
  dict_get (dict_set d k v) k'
  = if String.eqb k k' then Some v else dict_get d k'.
Proof.
  induction d as [|[k0 v0] d IH]; cbn [dict_set dict_get].
  - destruct (String.eqb k k'); reflexivity.
  - destruct (String.eqb_spec k0 k) as [->|Hne]; cbn [dict_get].
    + destruct (String.eqb k k'); reflexivity.
    + rewrite IH. destruct (String.eqb_spec k0 k') as [->|Hne'];
        [|reflexivity].
      destruct (String.eqb_spec k k') as [->|_]; [contradiction|reflexivity].
Qed.

Lemma dict_set_keys {V} (d : dict V) (k k' : string) (v : V) :
  In k' (map fst (dict_set d k v)) <-> k' = k \/ In k' (map fst d).
Proof.
  induction d as [|[k0 v0] d IH]; cbn [dict_set map fst In].
  - intuition congruence.
  - destruct (String.eqb_spec k0 k) as [->|Hne]; cbn [map fst In].
    + intuition congruence.
    + rewrite IH. intuition congruence.
Qed.

Lemma dict_set_NoDup {V} (d : dict V) (k : string) (v : V) :
  NoDup (map fst d) -> NoDup (map fst (dict_set d k v)).
Proof.
  induction d as [|[k0 v0] d IH]; cbn [dict_set map fst]; intro Hd.
  - constructor; [intros [] | constructor].
  - inversion Hd as [|x l Hx Hl]; subst.
    destruct (String.eqb_spec k0 k) as [->|Hne]; cbn [map fst].
    + constructor; assumption.
    + constructor; [|apply IH; exact Hl].
      rewrite dict_set_keys. intros [E|H]; [congruence | contradiction].
Qed.

(** Assigning to a key moves the sum of the values by the difference to
    what the key held, or to nothing if it was absent. *)
Lemma dict_set_values (d : dict Z) (k : string) (v : Z) :
  sum (map snd (dict_set d k v))
  = sum (map snd d) - dict_get_default d k 0 + v.
Proof.
  unfold dict_get_default.
  induction d as [|[k0 v0] d IH]; cbn [dict_set dict_get map snd].
  - rewrite sum_cons. change (sum []) with 0. lia.
  - destruct (String.eqb k0 k); cbn [map snd]; rewrite !sum_cons.
    + lia.
    + rewrite IH. lia.
Qed.

(** The loop of [location_sales] started from a dictionary [d]. *)
Lemma location_sales_from (items : list StoreItem) (d : dict Z) :
  let step := fun (d : dict Z) item =>
    dict_set d (location item)
             (dict_get_default d (location item) 0 + item_sales item) in
  let d' := fold_left step items d in
  (NoDup (map fst d) -> NoDup (map fst d'))
  /\ (forall loc, In loc (map fst d')
                  <-> In loc (map fst d) \/ In loc (map location items))
  /\ (forall loc,
        dict_get_default d' loc 0
        = dict_get_default d loc 0
          + sum (map item_sales
                     (filter (fun i => String.eqb (location i) loc) items)))
  /\ sum (map snd d')
     = sum (map snd d) + fold_right Z.add 0 (map item_sales items).
Proof.
  cbv zeta. revert d; induction items as [|it items IH]; intro d.
  - cbn [fold_left map filter fold_right In].
    repeat split; try tauto; intros; try change (sum []) with 0; lia.
  - cbn [fold_left].
    destruct (IH (dict_set d (location it)
                    (dict_get_default d (location it) 0 + item_sales it)))
      as (Hnd & Hin & Hget & Hsum).
    split; [|split; [|split]].
    + intro H. apply Hnd, dict_set_NoDup, H.
    + intro loc. rewrite Hin, dict_set_keys. cbn [map In].
      intuition congruence.
    + intro loc. rewrite Hget. unfold dict_get_default at 1.
      rewrite dict_get_set. cbn [filter].
      destruct (String.eqb_spec (location it) loc) as [->|Hne].
      * cbn [map]. rewrite sum_cons. lia.
      * fold (dict_get_default d loc 0). lia.
    + rewrite Hsum, dict_set_values. cbn [map fold_right]. lia.
Qed.

(** X10: [location_sales] has one entry per location that has an item,
    each holding the summed sales of the items at that location, a
    location without items reading as the default [0]; its values add up
    to [total_units_sold]. *)
Theorem location_sales_by_location (items : list StoreItem) :
  NoDup (map fst (location_sales items))
  /\ (forall loc, In loc (map fst (location_sales items))
                  <-> In loc (map location items))
  /\ (forall loc,
        dict_get_default (location_sales items) loc 0
        = sum (map item_sales
                   (filter (fun i => String.eqb (location i) loc) items)))
  /\ sum (map snd (location_sales items)) = total_units_sold items.
Proof.
  destruct (location_sales_from items []) as (Hnd & Hin & Hget & Hsum).
  unfold location_sales. split; [apply Hnd; constructor|].
  split; [intro loc; rewrite Hin; cbn; tauto|].
  split; [intro loc; rewrite Hget; reflexivity|].
  rewrite Hsum, total_units_sold_items. reflexivity.
Qed.

(** The sample store by location. *)
Example location_sales_sample :
  location_sales sample_store = [("Front Counter", 5); ("Rotating Rack", 3)].
Proof. vm_compute. reflexivity. Qed.

Lemma average_days_to_sell_value (f : Frame) :
  average_days_to_sell f = (Ok (average_value (self f)), f).
Proof.
  rewrite average_days_to_sell_run. unfold average_value.
  destruct (_sold_durations (self f)); reflexivity.
Qed.

Lemma dict_get_app {V} (d : dict V) (k k' : string) (v : V) :
  dict_get (d ++ [(k, v)]) k'
  = match dict_get d k' with
    | Some x => Some x
    | None => if String.eqb k k' then Some v else None
    end.
Proof.
  induction d as [|[k0 v0] d IH]; cbn [app dict_get]; [reflexivity|].
  destruct (String.eqb k0 k'); [reflexivity | exact IH].
Qed.

Lemma location_days_from_run (items : list StoreItem)
    (d : dict (list number)) (w : World) :
  exists d',
    location_days_from items d w = (Ok d', w)
    /\ forall loc,
         dict_get d' loc
         = match filter (fun i => String.eqb (location i) loc) items with
           | [] => dict_get d loc
           | here => Some (dict_get_default d loc []
                           ++ map average_value here)
           end.
Proof.
  revert d; induction items as [|it items IH]; intro d.
  - exists d. split; [reflexivity|]. intro loc. reflexivity.
  - cbn [location_days_from]. unfold dict_setdefault.
    set (v := dict_get_default d (location it) []).
    set (d1 := match dict_get d (location it) with
               | Some _ => d
               | None => d ++ [(location it, [])]
               end).
    assert (E : (match dict_get d (location it) with
                 | Some v0 => (d, v0)
                 | None => (d ++ [(location it, [])], [])
                 end) = (d1, v)).
    { unfold d1, v, dict_get_default.
      destruct (dict_get d (location it)); reflexivity. }
    rewrite E. unfold bind, call_method.
    rewrite average_days_to_sell_value. cbn [self env fst].
    destruct (IH (dict_set d1 (location it) (v ++ [average_value it])))
      as (d' & Ed & Hget).
    exists d'. split; [exact Ed|]. intro loc. rewrite Hget.
    cbn [filter]. unfold dict_get_default at 1.
    rewrite dict_get_set.
    assert (Hother : String.eqb (location it) loc = false ->
                     dict_get d1 loc = dict_get d loc).
    { intro Hne. unfold d1. destruct (dict_get d (location it));
        [reflexivity|]. rewrite dict_get_app, Hne.
      destruct (dict_get d loc); reflexivity. }
    destruct (String.eqb (location it) loc) eqn:Eloc.
    + apply String.eqb_eq in Eloc. subst loc. fold v.
      destruct (filter _ items); cbn [map]; rewrite <- ?app_assoc;
        reflexivity.
    + rewrite (Hother eq_refl). fold (dict_get_default d loc []).
      reflexivity.
Qed.

(** X11: [location_days] leaves the world alone and holds, under each
    location that has an item, the averages of the items there in item
    order; no list in it is empty, so the division by [len(v)] that
    follows cannot be a division by zero. *)
Theorem location_days_groups (items : list StoreItem) (w : World) :
  exists d,
    location_days items w = (Ok d, w)
    /\ (forall loc,
          In loc (map location items) ->
          dict_get d loc
          = Some (map average_value
                      (filter (fun i => String.eqb (location i) loc) items)))
    /\ (forall loc, ~ In loc (map location items) -> dict_get d loc = None)
    /\ (forall loc v, dict_get d loc = Some v -> v <> []).
Proof.
  destruct (location_days_from_run items [] w) as (d & E & Hget).
  exists d. split; [exact E|].
  assert (Hin : forall loc,
             In loc (map location items)
             <-> filter (fun i => String.eqb (location i) loc) items <> []).
  { intro loc. rewrite in_map_iff. split.
    - intros (i & Hl & Hi) Hf.
      assert (Hx : In i (filter (fun i => String.eqb (location i) loc)
                                items)).
      { apply filter_In. split; [exact Hi|]. apply String.eqb_eq, Hl. }
      rewrite Hf in Hx. contradiction.
    - destruct (filter _ items) as [|i l] eqn:Ef; [congruence|]. intros _.
      assert (Hx : In i (filter (fun i => String.eqb (location i) loc)
                                items)) by (rewrite Ef; left; reflexivity).
      apply filter_In in Hx as [Hi Hl]. exists i.
      split; [apply String.eqb_eq, Hl | exact Hi]. }
  split; [|split].
  - intros loc Hl. rewrite Hget. apply Hin in Hl.
    destruct (filter _ items); [congruence | reflexivity].
  - intros loc Hl. rewrite Hget.
    destruct (filter _ items) eqn:Ef; [reflexivity|].
    exfalso. apply Hl, Hin. rewrite Ef. discriminate.
  - intros loc v. rewrite Hget.
    destruct (filter _ items); cbn; [discriminate|].
    intros [= <-]. discriminate.
Qed.

(** ** The sidebar *)

Lemma selected_item_split (items : list StoreItem) (sel : string)
    (it : StoreItem) :
  selected_item items sel = Some it ->
  name it = sel
  /\ exists before after,
       items = before ++ it :: after
       /\ forall x, In x before -> name x <> sel.
Proof.
  unfold selected_item. induction items as [|i items IH]; cbn [find].
  - discriminate.
  - destruct (String.eqb_spec (name i) sel) as [E|Hne].
    + intros [= <-]. split; [exact E|].
      exists [], items. split; [reflexivity | intros x []].
    + intro H. destruct (IH H) as (Hn & before & after & -> & Hb).
      split; [exact Hn|]. exists (i :: before), after.
      split; [reflexivity|]. intros x [<-|Hx]; [exact Hne | apply Hb, Hx].
Qed.

(** X12: the selection finds an item exactly when the name is one of the
    item names, and what it finds has that name; when the names are
    distinct, as the factory makes them, every item is found by its own
    name. *)
Theorem selected_item_lookup (items : list StoreItem) :
  NoDup (item_names items) ->
  (forall sel, selected_item items sel = None
               <-> ~ In sel (item_names items))
  /\ (forall sel it, selected_item items sel = Some it ->
                     name it = sel /\ In it items)
  /\ (forall it, In it items -> selected_item items (name it) = Some it).
Proof.
  intro Hnd. split; [|split].
  - intro sel. unfold selected_item, item_names. split.
    + intros Hnone Hin. apply in_map_iff in Hin as (i & Hn & Hi).
      apply (find_none _ _ Hnone) in Hi. apply String.eqb_neq in Hi.
      contradiction.
    + intro Hnot. destruct (find _ items) as [i|] eqn:E; [|reflexivity].
      apply find_some in E as [Hi Hn]. apply String.eqb_eq in Hn.
      exfalso. apply Hnot, in_map_iff. exists i. split; assumption.
  - intros sel it H. destruct (selected_item_split _ _ _ H)
      as (Hn & before & after & -> & _).
    split; [exact Hn|]. apply in_or_app. right. left. reflexivity.
  - unfold item_names in Hnd. unfold selected_item.
    induction items as [|i items IH]; intros it Hin; [contradiction|].
    cbn [find]. cbn [map] in Hnd. inversion Hnd as [|x l Hx Hl]; subst.
    destruct Hin as [<-|Hin]; [rewrite String.eqb_refl; reflexivity|].
    destruct (String.eqb_spec (name i) (name it)) as [E|_];
      [|apply IH; assumption].
    exfalso. apply Hx. rewrite E. apply in_map. exact Hin.
Qed.

Lemma selected_item_lookup_witness :
  NoDup (item_names sample_store)
  /\ forall it, In it sample_store ->
                selected_item sample_store (name it) = Some it.
Proof.
  assert (H : NoDup (item_names sample_store)).
  { vm_compute. repeat (constructor; [cbn; intuition discriminate|]).
    constructor. }
  split; [exact H|].
  exact (proj2 (proj2 (selected_item_lookup sample_store H))).
Defined.

Lemma a_day_older_kpi (items : list StoreItem) :
  map transactions (map a_day_older items) = map transactions items.
Proof. rewrite map_map. apply map_ext. intro it. reflexivity. Qed.

Lemma simulate_day_passing_run (items : list StoreItem) (w : World) :
  Forall can_age items ->
  exists w',
    simulate_day_passing items w = (Ok tt, w', map a_day_older items).
Proof.
  intro Hall. revert w. induction Hall as [|it items Hit _ IH]; intro w.
  - exists w. reflexivity.
  - cbn [simulate_day_passing map].
    destruct (advance_day_run (mkFrame w it)) as (w1 & E).
    { unfold can_age in Hit. cbn [self]. lia. }
    rewrite E. cbn [self env]. destruct (IH w1) as (w2 & E2).
    rewrite E2. exists w2. reflexivity.
Qed.

(** X13: on a store whose display dates can all be taken back by a day,
    the day-passing button returns, moves the display date of every item
    back by one day, and changes no quantity, no log, no recorded
    duration and so no KPI. *)
Theorem simulate_day_passing_all (items : list StoreItem) (w : World) :
  Forall can_age items ->
  exists w',
    simulate_day_passing items w = (Ok tt, w', map a_day_older items)
    /\ map quantity (map a_day_older items) = map quantity items
    /\ map transactions (map a_day_older items) = map transactions items
    /\ map _sold_durations (map a_day_older items)
       = map _sold_durations items
    /\ sales (map a_day_older items) = sales items
    /\ total_units_sold (map a_day_older items) = total_units_sold items.
Proof.
  intro Hall.
  destruct (simulate_day_passing_run items w Hall) as (w' & E).
  exists w'. split; [exact E|].
  assert (Hs : sales (map a_day_older items) = sales items).
  { unfold sales. rewrite map_map. apply map_ext. intro it. reflexivity. }
  split; [rewrite map_map; apply map_ext; intro; reflexivity|].
  split; [apply a_day_older_kpi|].
  split; [rewrite map_map; apply map_ext; intro; reflexivity|].
  split; [exact Hs|].
  rewrite !total_units_sold_items. fold (sales (map a_day_older items)).
  rewrite Hs. reflexivity.
Qed.

Lemma sample_store_can_age : Forall can_age sample_store.
Proof. repeat constructor; vm_compute; discriminate. Qed.

Lemma simulate_day_passing_all_witness :
  Forall can_age sample_store
  /\ exists w',
       simulate_day_passing sample_store sample_world
       = (Ok tt, w', map a_day_older sample_store).
Proof.
  split; [exact sample_store_can_age|].
  destruct (simulate_day_passing_all sample_store sample_world
              sample_store_can_age) as (w' & E & _).
  exists w'. exact E.
Defined.

(** X23: the day-passing button is not guarded.  At the first item whose
    display date cannot be taken back by a day the loop raises
    [OverflowError]; the items before it have been aged by then and stay
    so, that item and the items after it are untouched. *)
Theorem simulate_day_passing_overflow (before after : list StoreItem)
    (it : StoreItem) (w : World) :
  Forall can_age before ->
  ~ can_age it ->
  exists w',
    simulate_day_passing (before ++ it :: after) w
    = (Raise (OverflowError "date value out of range"), w',
       map a_day_older before ++ it :: after).
Proof.
  intros Hall Hit. revert w.
  induction Hall as [|b before Hb _ IH]; intro w.
  - cbn [app simulate_day_passing map].
    rewrite (advance_day_raises (mkFrame w it)).
    + exists w. reflexivity.
    + unfold can_age in Hit. cbn [self]. lia.
  - cbn [app simulate_day_passing map].
    destruct (advance_day_run (mkFrame w b)) as (w1 & E).
    { unfold can_age in Hb. cbn [self]. lia. }
    rewrite E. cbn [self env]. destruct (IH w1) as (w2 & E2).
    rewrite E2. exists w2. reflexivity.
Qed.

Lemma simulate_day_passing_overflow_witness :
  Forall can_age [sample_item]
  /\ ~ can_age (set_shelf_tracking sample_item (mkShelfTracking 0 5))
  /\ exists w',
       simulate_day_passing
         ([sample_item]
          ++ set_shelf_tracking sample_item (mkShelfTracking 0 5)
          :: [sample_item]) sample_world
       = (Raise (OverflowError "date value out of range"), w',
          map a_day_older [sample_item]
          ++ set_shelf_tracking sample_item (mkShelfTracking 0 5)
          :: [sample_item]).
Proof.
  assert (H1 : Forall can_age [sample_item])
    by (repeat constructor; vm_compute; discriminate).
  assert (H2 : ~ can_age (set_shelf_tracking sample_item
                            (mkShelfTracking 0 5)))
    by (vm_compute; intro H; apply H; reflexivity).
  split; [exact H1|]. split; [exact H2|].
  exact (simulate_day_passing_overflow [sample_item] [sample_item]
           _ sample_world H1 H2).
Defined.

Lemma on_selected_run {A} (sel : string) (m : Prog Frame A)
    (items : list StoreItem) (w : World) (it : StoreItem) :
  selected_item items sel = Some it ->
  exists before after,
    items = before ++ it :: after
    /\ on_selected sel m items w
       = Some (fst (m (mkFrame w it)), env (snd (m (mkFrame w it))),
               before ++ self (snd (m (mkFrame w it))) :: after).
Proof.
  unfold selected_item. induction items as [|i items IH];
    cbn [find on_selected]; [discriminate|].
  destruct (String.eqb (name i) sel).
  - intros [= <-]. exists [], items. split; [reflexivity|].
    destruct (m (mkFrame w i)) as [r f]. reflexivity.
  - intro H. destruct (IH H) as (before & after & -> & E).
    exists (i :: before), after. split; [reflexivity|].
    rewrite E. reflexivity.
Qed.

Lemma perform_button (b : button) (qty : Z) (f : Frame) :
  snd (button_method b qty f) = handled f (button_action b qty).
Proof.
  unfold handled. destruct b; cbn [button_method button_action perform];
    unfold bind;
    match goal with |- context [match ?m with _ => _ end] =>
      destruct m as [[t|e] g] end; reflexivity.
Qed.

(** X14: a click on one of the three item buttons changes, in the store,
    the selected item only, the first of the selected name, into what the
    action makes of it; the other items and all the names stay. *)
Theorem click_changes_selected (repr_items : list StoreItem -> string)
    (b : button) (sel : string) (qty : Z) (p : Page) (it : StoreItem) :
  selected_item (store_items p) sel = Some it ->
  exists p' before after,
    click repr_items b sel qty p = Some p'
    /\ store_items p = before ++ it :: after
    /\ store_items p'
       = before
         ++ self (handled (mkFrame (page_env p) it) (button_action b qty))
         :: after
    /\ item_names (store_items p') = item_names (store_items p).
Proof.
  intro Hsel.
  destruct (on_selected_run sel (button_method b qty) (store_items p)
              (page_env p) it Hsel) as (before & after & Ei & E).
  unfold click. rewrite E. rewrite perform_button.
  set (f' := handled (mkFrame (page_env p) it) (button_action b qty)).
  assert (Hn : name (self f') = name it).
  { destruct (handled_log (mkFrame (page_env p) it) (button_action b qty))
      as (_ & _ & _ & _ & _ & Hn & _). exact Hn. }
  assert (Hnames : item_names (before ++ self f' :: after)
                   = item_names (store_items p)).
  { rewrite Ei. unfold item_names. rewrite !map_app. cbn [map].
    rewrite Hn. reflexivity. }
  destruct (fst (button_method b qty (mkFrame (page_env p) it)));
    eexists; exists before, after; cbn [store_items];
    repeat split; assumption.
Qed.

Lemma click_changes_selected_witness :
  selected_item sample_store "LED Lanyard"
  = Some (nth 1 sample_store sample_item)
  /\ exists p',
       click (fun _ => "") RestockButton "LED Lanyard" 4
             (mkPage sample_world sample_store []) = Some p'
       /\ item_names (store_items p') = item_names sample_store.
Proof.
  assert (H : selected_item sample_store "LED Lanyard"
              = Some (nth 1 sample_store sample_item))
    by (vm_compute; reflexivity).
  split; [exact H|].
  destruct (click_changes_selected (fun _ => "") RestockButton "LED Lanyard"
              4 (mkPage sample_world sample_store []) _ H)
    as (p' & before & after & E & _ & _ & Hn).
  exists p'. split; assumption.
Defined.

(** X15: a Sell click for more than the selected item has in stock is
    caught by the handler: the store and the world stay exactly as they
    were and the sidebar shows the error message of [purchase]. *)
Theorem click_sell_insufficient (repr_items : list StoreItem -> string)
    (sel : string) (qty : Z) (p : Page) (it : StoreItem) :
  selected_item (store_items p) sel = Some it ->
  quantity it < qty ->
  click repr_items SellButton sel qty p
  = Some (mkPage (page_env p) (store_items p)
            (sidebar p
             ++ [SidebarError "Error: Not enough inventory to purchase"])).
Proof.
  intros Hsel Hq.
  destruct (on_selected_run sel (purchase qty) (store_items p)
              (page_env p) it Hsel) as (before & after & Ei & E).
  unfold click. cbn [button_method]. rewrite E.
  rewrite (purchase_raises (mkFrame (page_env p) it) qty Hq).
  cbn [fst snd env self]. rewrite <- Ei. reflexivity.
Qed.

Lemma click_sell_insufficient_witness :
  selected_item sample_store "LED Lanyard"
  = Some (nth 1 sample_store sample_item)
  /\ quantity (nth 1 sample_store sample_item) < 23
  /\ store_items
       (match click (fun _ => "") SellButton "LED Lanyard" 23
                (mkPage sample_world sample_store []) with
        | Some p' => p'
        | None => mkPage sample_world [] []
        end) = sample_store.
Proof.
  assert (H1 : selected_item sample_store "LED Lanyard"
               = Some (nth 1 sample_store sample_item))
    by (vm_compute; reflexivity).
  assert (H2 : quantity (nth 1 sample_store sample_item) < 23)
    by (vm_compute; reflexivity).
  split; [exact H1|]. split; [exact H2|].
  rewrite (click_sell_insufficient (fun _ => "") "LED Lanyard" 23
             (mkPage sample_world sample_store []) _ H1 H2).
  reflexivity.
Defined.

(** A click for a name that no item has finds nothing to act on. *)
Lemma click_unknown_name (repr_items : list StoreItem -> string)
    (b : button) (sel : string) (qty : Z) (p : Page) :
  selected_item (store_items p) sel = None ->
  click repr_items b sel qty p = None.
Proof.
  intro H. unfold click.
  assert (E : on_selected sel (button_method b qty) (store_items p)
                (page_env p) = None).
  { revert H. unfold selected_item.
    induction (store_items p) as [|i items IH]; cbn [find on_selected];
      [reflexivity|].
    destruct (String.eqb (name i) sel); [discriminate|].
    intro H. rewrite (IH H). reflexivity. }
  rewrite E. reflexivity.
Qed.

(** ** The seeded store *)

Lemma generate_store_run (w : World) :
  exists items w',
    generate_store w = (Ok items, w')
    /\ Forall2 seeded_with [(10, 15); (6, 10); (5, 9); (4, 8); (1, 5)] items.
Proof.
  unfold generate_store.
  do 5 (unfold bind at 1; rewrite random_shelf_tracking_run).
  cbn [combine].
  match goal with |- context [simulate_sales ?l ?w5] =>
    destruct (simulate_sales_run l w5) as (items & w' & E & Hall) end.
  { repeat constructor; cbn; lia. }
  exists items, w'. split; [exact E|].
  pose proof (Forall2_length Hall) as Hlen.
  destruct items as [|i1 [|i2 [|i3 [|i4 [|i5 [|i6 items]]]]]];
    try discriminate Hlen. clear Hlen.
  apply Forall2_cons_iff in Hall as [H1 Hall].
  apply Forall2_cons_iff in Hall as [H2 Hall].
  apply Forall2_cons_iff in Hall as [H3 Hall].
  apply Forall2_cons_iff in Hall as [H4 Hall].
  apply Forall2_cons_iff in Hall as [H5 _].
  cbn [fst snd] in *.
  apply seeded_seeded_with in H1 as (S1 & _); [|cbn; lia].
  apply seeded_seeded_with in H2 as (S2 & _); [|cbn; lia].
  apply seeded_seeded_with in H3 as (S3 & _); [|cbn; lia].
  apply seeded_seeded_with in H4 as (S4 & _); [|cbn; lia].
  apply seeded_seeded_with in H5 as (S5 & _); [|cbn; lia].
  repeat constructor; assumption.
Qed.

(** What the KPI expressions see of a seeded item. *)
Lemma seeded_with_sales (rng : Z * Z) (it : StoreItem) :
  seeded_with rng it ->
  fst rng <= item_sales it <= snd rng
  /\ quantity it + item_sales it = 20
  /\ forallb well_signed (transactions it) = true
  /\ Z.of_nat (List.length (_sold_durations it)) = item_sales it.
Proof.
  intros (q & txn & Hq & Hquant & Ht & Hc & Hty & Hlen).
  assert (Es : item_sales it = q).
  { unfold item_sales. rewrite Ht. cbn [filter]. unfold has_type.
    rewrite Hty. cbn. rewrite Hc. lia. }
  rewrite Es. repeat split; try lia.
  rewrite Ht. cbn [forallb]. unfold well_signed, has_type.
  rewrite Hty, Hc. cbn. rewrite andb_true_r. lia.
Qed.

(** X16: whatever the random draws, the store the factory returns shows
    between 26 and 47 units sold, the units sold and the units left add
    up to the hundred units the items were built with, and every log
    follows the sign convention. *)
Theorem generate_store_units (w : World) :
  exists items w',
    generate_store w = (Ok items, w')
    /\ 26 <= total_units_sold items <= 47
    /\ sum (map quantity items) + total_units_sold items = 100
    /\ ledger_well_signed items = true
    /\ Forall (fun it => Z.of_nat (List.length (_sold_durations it))
                         = item_sales it) items.
Proof.
  destruct (generate_store_run w) as (items & w' & E & Hall).
  exists items, w'. split; [exact E|].
  pose proof (Forall2_length Hall) as Hlen.
  destruct items as [|i1 [|i2 [|i3 [|i4 [|i5 [|i6 items]]]]]];
    try discriminate Hlen. clear Hlen.
  apply Forall2_cons_iff in Hall as [H1 Hall].
  apply Forall2_cons_iff in Hall as [H2 Hall].
  apply Forall2_cons_iff in Hall as [H3 Hall].
  apply Forall2_cons_iff in Hall as [H4 Hall].
  apply Forall2_cons_iff in Hall as [H5 _].
  apply seeded_with_sales in H1 as (B1 & Q1 & W1 & L1).
  apply seeded_with_sales in H2 as (B2 & Q2 & W2 & L2).
  apply seeded_with_sales in H3 as (B3 & Q3 & W3 & L3).
  apply seeded_with_sales in H4 as (B4 & Q4 & W4 & L4).
  apply seeded_with_sales in H5 as (B5 & Q5 & W5 & L5).
  cbn [fst snd] in *.
  rewrite total_units_sold_items. cbn [map fold_right].
  rewrite !sum_cons. change (sum []) with 0.
  split; [lia|]. split; [lia|].
  split; [cbn [ledger_well_signed forallb];
          rewrite W1, W2, W3, W4, W5; reflexivity|].
  repeat constructor; assumption.
Qed.

(** [purchase] reads the clock twice and leaves it otherwise alone. *)
Lemma purchase_env (f : Frame) (qty : Z) :
  qty <= quantity (self f) ->
  wall_clock (env (snd (purchase qty f))) = wall_clock (env f)
  /\ now_calls (env (snd (purchase qty f)))
     = Datatypes.S (Datatypes.S (now_calls (env f))).
Proof.
  destruct f as [w it]. cbn [self env]. intro Hq.
  assert (H : exists r, purchase qty (mkFrame w it) = r
                        /\ wall_clock (env (snd r)) = wall_clock w
                        /\ now_calls (env (snd r))
                           = Datatypes.S (Datatypes.S (now_calls w))).
  { eexists. split.
    - unfold purchase. unfold bind at 1. cbn [get_self self].
      destruct (Z.gtb_spec qty (quantity it)) as [Hgt|_]; [lia|].
      unfold bind at 1. unfold in_world at 1. cbn [datetime_now].
      unfold bind at 1. cbn [get_self].
      unfold bind at 1. unfold for_range. rewrite for_n_append.
      reflexivity.
    - split; reflexivity. }
  destruct H as (r & <- & H1 & H2). split; assumption.
Qed.

Lemma clock_monotone_le (w : World) (i j : nat) :
  clock_monotone w -> (i <= j)%nat -> wall_clock w i <= wall_clock w j.
Proof.
  intros Hm Hij. induction Hij as [|j _ IH]; [lia|].
  specialize (Hm j). lia.
Qed.

Lemma simulate_sales_clock (l : list (StoreItem * (Z * Z))) (w : World) :
  Forall (fun p => fst (snd p) <= snd (snd p) <= quantity (fst p)) l ->
  exists items w',
    simulate_sales l w = (Ok items, w')
    /\ Forall2 (fun p it =>
                  seeded_durations w (now_calls w) (fst p) (snd p) it)
               l items.
Proof.
  intro Hl. revert w. induction Hl as [|[item [lo hi]] l Hp _ IH]; intro w.
  - exists [], w. split; [reflexivity | constructor].
  - cbn [fst snd] in Hp. cbn [simulate_sales]. unfold bind at 1.
    rewrite random_randint_run by lia.
    pose proof (randint_bounds lo hi (rand_source w (rand_calls w))
                  ltac:(lia)) as Hq.
    set (q := lo + rand_source w (rand_calls w) mod (hi - lo + 1)) in *.
    set (w0 := mkWorld (wall_clock w) (now_calls w) (uuid_source w)
                 (uuid_calls w) (rand_source w)
                 (Datatypes.S (rand_calls w)) (datetime_str w) (console w)).
    unfold bind at 1. unfold call_method.
    destruct (purchase_env (mkFrame w0 item) q) as (Hc & Hn); [cbn; lia|].
    destruct (purchase_run (mkFrame w0 item) q)
      as (txn & w1 & E & _); [cbn; lia|].
    rewrite E in Hc, Hn. rewrite E. cbn [self env snd fst] in *.
    subst w0. cbn [wall_clock now_calls] in Hc, Hn.
    destruct (IH w1) as (items & w2 & E2 & Hall).
    unfold bind. rewrite E2. cbn [ret snd].
    eexists; eexists. split; [reflexivity|].
    constructor.
    + exists (now_calls w), q. cbn [fst snd shelf_tracking _sold_durations].
      repeat split; try lia.
    + revert Hall. apply Forall2_impl.
      intros p it (i & q' & Hi & Hq' & Hs & Hd).
      exists i, q'. rewrite Hn in Hi. rewrite Hc in Hd.
      repeat split; try assumption; lia.
Qed.

Lemma sum_repeat (d : Z) (n : nat) : sum (repeat d n) = d * Z.of_nat n.
Proof.
  induction n as [|n IH]; [cbn; change (sum []) with 0; lia|].
  cbn [repeat]. rewrite sum_cons, IH. lia.
Qed.

(** Equal durations have their common value as mean, an integer. *)
Lemma average_value_repeat (it : StoreItem) (d : Z) (n : nat) :
  _sold_durations it = repeat d (Datatypes.S n) ->
  average_value it = PyInt d.
Proof.
  intro H. unfold average_value. rewrite H. cbn [repeat].
  change (d :: repeat d n) with (repeat d (Datatypes.S n)).
  unfold mean_number. rewrite sum_repeat, repeat_length.
  rewrite Z.mod_mul, Z.div_mul by lia. reflexivity.
Qed.

(** X17: when the clock does not go back, every unit the factory seeds
    as sold has been on the shelf for at least one whole day, so every
    item of a new store shows an average of at least one day. *)
Theorem generate_store_days (w : World) :
  clock_monotone w ->
  exists items w',
    generate_store w = (Ok items, w')
    /\ Forall (fun it =>
                 _sold_durations it <> []
                 /\ Forall (fun d => 1 <= d) (_sold_durations it)
                 /\ (inject_Z 1 <= number_value (average_value it))%Q)
           items.
Proof.
  intro Hm. unfold generate_store.
  unfold bind at 1. rewrite random_shelf_tracking_run.
  set (w1 := after_shelf_tracking w).
  unfold bind at 1. rewrite random_shelf_tracking_run.
  set (w2 := after_shelf_tracking w1).
  unfold bind at 1. rewrite random_shelf_tracking_run.
  set (w3 := after_shelf_tracking w2).
  unfold bind at 1. rewrite random_shelf_tracking_run.
  set (w4 := after_shelf_tracking w3).
  unfold bind at 1. rewrite random_shelf_tracking_run.
  set (w5 := after_shelf_tracking w4).
  cbn [combine].
  match goal with |- context [simulate_sales ?l w5] =>
    destruct (simulate_sales_clock l w5) as (items & w' & E & Hall) end.
  { repeat constructor; cbn; lia. }
  exists items, w'. split; [exact E|]. clear E.
  assert (Hone : forall (s : ShelfTracking) (rng : Z * Z) (n u c l : string)
                        (it : StoreItem) (k : nat) (dd : Z),
             1 <= fst rng -> 1 <= dd -> (k < now_calls w5)%nat ->
             date_displayed s = wall_clock w k - timedelta_of_days dd ->
             seeded_durations w5 (now_calls w5)
               (new_StoreItem n u 20 c l s) rng it ->
             _sold_durations it <> []
             /\ Forall (fun d => 1 <= d) (_sold_durations it)
             /\ (inject_Z 1 <= number_value (average_value it))%Q).
  { intros s rng n u c l it k dd Hr Hdd Hk Hs (i & q & Hi & Hq & _ & Hd).
    cbn [new_StoreItem shelf_tracking _sold_durations app] in Hd.
    change (wall_clock w5) with (wall_clock w) in Hd. rewrite Hs in Hd.
    pose proof (clock_monotone_le w k i Hm ltac:(lia)) as Hki.
    set (span := wall_clock w i
                 - (wall_clock w k - timedelta_of_days dd)) in *.
    assert (H1 : 1 <= days span).
    { unfold days. apply Z.div_le_lower_bound; [exact usec_per_day_pos|].
      unfold span, timedelta_of_days. pose proof usec_per_day_pos. nia. }
    assert (Hne : _sold_durations it <> []).
    { rewrite Hd. destruct (Z.to_nat q) eqn:Eq; [lia | discriminate]. }
    assert (Hall1 : Forall (fun d => 1 <= d) (_sold_durations it)).
    { rewrite Hd. apply Forall_forall. intros x Hx.
      apply repeat_spec in Hx. lia. }
    split; [exact Hne|]. split; [exact Hall1|].
    destruct (Z.to_nat q) as [|n'] eqn:Eq; [lia|].
    rewrite (average_value_repeat it _ n' Hd). cbn [number_value].
    unfold Qle. cbn [Qnum Qden inject_Z]. lia. }
  pose proof (Forall2_length Hall) as Hlen.
  destruct items as [|i1 [|i2 [|i3 [|i4 [|i5 [|i6 items]]]]]];
    try discriminate Hlen. clear Hlen.
  apply Forall2_cons_iff in Hall as [H1 Hall].
  apply Forall2_cons_iff in Hall as [H2 Hall].
  apply Forall2_cons_iff in Hall as [H3 Hall].
  apply Forall2_cons_iff in Hall as [H4 Hall].
  apply Forall2_cons_iff in Hall as [H5 _].
  cbn [fst snd] in *.
  pose proof (drawn_displayed_bounds w) as D0.
  pose proof (drawn_displayed_bounds w1) as D1.
  pose proof (drawn_displayed_bounds w2) as D2.
  pose proof (drawn_displayed_bounds w3) as D3.
  pose proof (drawn_displayed_bounds w4) as D4.
  apply Forall_cons.
  { eapply (Hone _ _ _ _ _ _ _ (1 + now_calls w)%nat); try exact H1;
      [cbn; lia | apply D0 | unfold w5, w4, w3, w2, w1; cbn; lia
      | reflexivity]. }
  apply Forall_cons.
  { eapply (Hone _ _ _ _ _ _ _ (3 + now_calls w)%nat); try exact H2;
      [cbn; lia | apply D1 | unfold w5, w4, w3, w2, w1; cbn; lia
      | reflexivity]. }
  apply Forall_cons.
  { eapply (Hone _ _ _ _ _ _ _ (5 + now_calls w)%nat); try exact H3;
      [cbn; lia | apply D2 | unfold w5, w4, w3, w2, w1; cbn; lia
      | reflexivity]. }
  apply Forall_cons.
  { eapply (Hone _ _ _ _ _ _ _ (7 + now_calls w)%nat); try exact H4;
      [cbn; lia | apply D3 | unfold w5, w4, w3, w2, w1; cbn; lia
      | reflexivity]. }
  apply Forall_cons.
  { eapply (Hone _ _ _ _ _ _ _ (9 + now_calls w)%nat); try exact H5;
      [cbn; lia | apply D4 | unfold w5, w4, w3, w2, w1; cbn; lia
      | reflexivity]. }
  apply Forall_nil.
Qed.

Lemma generate_store_days_witness :
  clock_monotone sample_world
  /\ exists items w',
       generate_store sample_world = (Ok items, w')
       /\ Forall (fun it =>
                    (inject_Z 1 <= number_value (average_value it))%Q)
                 items.
Proof.
  split; [exact sample_clock_monotone|].
  destruct (generate_store_days sample_world sample_clock_monotone)
    as (items & w' & E & Hall).
  exists items, w'. split; [exact E|].
  revert Hall. apply Forall_impl. intros it (_ & _ & H). exact H.
Defined.

(** ** Launching the app *)

Lemma environ_set_putenv (h : Host) (k : string) (c : Ascii.ascii)
    (v : string) :
  environ_set (putenv k (String c v) h) k = true.
Proof.
  unfold environ_set, putenv. cbn [environ].
  rewrite dict_get_set, String.eqb_refl. reflexivity.
Qed.

Lemma launch_streamlit_marks (h : Host) :
  environ_set (snd (launch_streamlit h)) "STREAMLIT_RUNNING" = true.
Proof.
  unfold launch_streamlit.
  destruct (environ_set h "STREAMLIT_RUNNING") eqn:E; [exact E|].
  destruct (runtime_exists h).
  - destruct (is_port_in_use _ _ _); cbn [snd]; apply environ_set_putenv.
  - cbn [snd]. unfold subprocess_run, host_print, environ_set.
    cbn [environ]. apply (environ_set_putenv h).
Qed.

(** X18: the guard against relaunching.  After any call the variable
    [STREAMLIT_RUNNING] is set to a non-empty value, so a process with
    that environment, the same process calling again or a child that
    inherited it, returns from [launch_streamlit] at once, running no
    subprocess and changing nothing; and every subprocess the call runs
    is given that environment. *)
Theorem launch_streamlit_once (h : Host) :
  let h' := snd (launch_streamlit h) in
  (forall child, environ child = environ h' ->
                 launch_streamlit child = (Returned, child))
  /\ launch_streamlit h' = (Returned, h')
  /\ (subprocesses h' = subprocesses h
      \/ exists args, subprocesses h' = subprocesses h ++ [(args, environ h')]).
Proof.
  cbv zeta. pose proof (launch_streamlit_marks h) as Hm.
  assert (Hchild : forall child,
             environ child = environ (snd (launch_streamlit h)) ->
             launch_streamlit child = (Returned, child)).
  { intros child Hc. unfold launch_streamlit at 1.
    unfold environ_set in *. rewrite Hc.
    destruct (dict_get _ _) as [[|c v]|]; try discriminate. reflexivity. }
  split; [exact Hchild|]. split; [apply Hchild; reflexivity|].
  unfold launch_streamlit.
  destruct (environ_set h "STREAMLIT_RUNNING"); [left; reflexivity|].
  destruct (runtime_exists h).
  - left. destruct (is_port_in_use _ _ _); reflexivity.
  - right. eexists. reflexivity.
Qed.

(** [launch_streamlit] runs a subprocess, and then exits with code
    0, exactly when [STREAMLIT_RUNNING] is unset or empty and no
    Streamlit runtime exists; it is then the one command line
    [python -m streamlit run script --server.headless true].  In every
    other case it returns, with the variable left as it was when set,
    and set to 2 or 1, as port 8501 answers or not, when a runtime
    exists. *)
Lemma launch_streamlit_cases (h : Host) :
  let r := fst (launch_streamlit h) in
  let h' := snd (launch_streamlit h) in
  (environ_set h "STREAMLIT_RUNNING" = true -> r = Returned /\ h' = h)
  /\ (environ_set h "STREAMLIT_RUNNING" = false ->
      runtime_exists h = true ->
      r = Returned
      /\ subprocesses h' = subprocesses h
      /\ stdout h' = stdout h
      /\ dict_get (environ h') "STREAMLIT_RUNNING"
         = Some (if connect_ex h "127.0.0.1" 8501 =? 0 then "2" else "1"))
  /\ (environ_set h "STREAMLIT_RUNNING" = false ->
      runtime_exists h = false ->
      r = SystemExit 0
      /\ dict_get (environ h') "STREAMLIT_RUNNING" = Some "3"
      /\ stdout h' = stdout h ++ ["Launching Streamlit app..."]
      /\ subprocesses h'
         = subprocesses h
           ++ [([sys_executable h; "-m"; "streamlit"; "run"; script_path h;
                 "--server.headless"; "true"], environ h')])
  /\ (r = SystemExit 0
      <-> environ_set h "STREAMLIT_RUNNING" = false
          /\ runtime_exists h = false).
Proof.
  cbv zeta. unfold launch_streamlit.
  destruct (environ_set h "STREAMLIT_RUNNING") eqn:E.
  { cbn [fst snd]. split; [intros _; split; reflexivity|].
    split; [discriminate|]. split; [discriminate|].
    split; [discriminate | intros [H _]; discriminate]. }
  destruct (runtime_exists h) eqn:Er.
  - cbn [fst snd]. split; [discriminate|].
    split; [|split; [discriminate|]].
    + intros _ _. unfold is_port_in_use, putenv. cbn [connect_ex].
      destruct (connect_ex h "127.0.0.1" 8501 =? 0);
        cbn [environ subprocesses stdout]; rewrite ?dict_get_set;
        cbn; repeat split.
    + split; [discriminate | intros [_ H]; discriminate].
  - cbn [fst snd]. split; [discriminate|].
    split; [discriminate|]. split; [|tauto].
    intros _ _. cbn [environ subprocess_run host_print putenv stdout
                      subprocesses sys_executable script_path].
    rewrite dict_get_set. repeat split.
Qed.

(** An empty [STREAMLIT_RUNNING] counts as unset: the app is launched. *)
Example launch_streamlit_empty_variable :
  fst (launch_streamlit
         (mkHost [("STREAMLIT_RUNNING", "")] false (fun _ _ => 111)
                 "python3" "/app/main.py" [] []))
  = SystemExit 0.
Proof. reflexivity. Qed.
